(** * kbcli: command option lifecycle (Complete / Validate / Run)

    A shallow embedding of the option-handling code of the [accounts] and
    [cluster] command packages, and the properties of it that the
    specification states.

    Conventions.
    - A Go [string] is a [string] (a sequence of bytes); [len(s) == 0] is
      [s = ""].
    - A Go [error] is its message; a function returning [error] returns a
      [result].
    - A method with a pointer receiver that assigns to fields of [o] takes
      the options value and returns the updated one.
    - Requests sent through the dynamic client and text written to [o.Out]
      are recorded, in program order, in a log of [Event]s. *)

From stdpp Require Import base option list gmap strings sorting.
From Stdlib Require Import ZArith Lia Ascii.

Local Open Scope Z_scope.
Local Open Scope nat_scope.

(** ** Errors *)

Inductive result (A : Type) : Type :=
  | Ok (a : A)
  | Err (e : string).
Arguments Ok {A} a.
Arguments Err {A} e.

Definition is_Ok {A} (r : result A) : Prop :=
  match r with Ok _ => True | Err _ => False end.

Definition is_Err {A} (r : result A) : Prop :=
  match r with Ok _ => False | Err _ => True end.

(** [Contains s t]: the text [s] occurs in [t]. *)
Definition Contains (s t : string) : Prop :=
  ∃ pre post, t = pre +:+ s +:+ post.

(** ** Package [accounts] (pkg/cmd/accounts/base.go) *)

Module accounts.

Record AccountBaseOptions : Type := mkAccountBaseOptions {
  ClusterName : string;
  CharType : string;
  ComponentName : string;
  PodName : string;
  Verbose : bool
}.

Definition errClusterNameNum : string :=
  "please specify ONE cluster-name at a time".
Definition errMissingUserName : string := "please specify username".
Definition errMissingRoleName : string :=
  "please specify at least ONE role name".
Definition errInvalidRoleName : string :=
  "invalid role name, should be one of [SUPERUSER, READWRITE, READONLY] ".
Definition errCompNameOrInstName : string :=
  "please specify either --component or --instance, they are exclusive".
Definition errClusterNameorInstName : string :=
  "specify either cluster name or --instance".

(** [o.ClusterName = v] *)
Definition setClusterName (v : string) (o : AccountBaseOptions) :
    AccountBaseOptions :=
  {| ClusterName := v;
     CharType := CharType o;
     ComponentName := ComponentName o;
     PodName := PodName o;
     Verbose := Verbose o |}.

(** [func (o *AccountBaseOptions) Validate(args []string) error] *)
Definition Validate (o : AccountBaseOptions) (args : list string) :
    result AccountBaseOptions :=
  if bool_decide (1 < length args) then Err errClusterNameNum
  else
    let tail (_ : unit) :=
      match args with
      | [a] => Ok (setClusterName a o)
      | _ => Ok o
      end in
    if bool_decide (0 < String.length (PodName o)) then
      if bool_decide (0 < String.length (ComponentName o)) then
        Err errCompNameOrInstName
      else if bool_decide (0 < length args) then
        Err errClusterNameorInstName
      else tail ()
    else if bool_decide (length args = 0) then
      Err errClusterNameorInstName
    else tail ().

End accounts.

(** ** Package [action]: the option structs shared by the commands

    The declarations of [action.DeleteOptions], [action.ListOptions] and
    [action.CreateOptions] are not among the sources; each is the record of
    the fields that the commands below read or assign. *)

Module DeleteOptions.
Record t : Type := mk {
  Names : list string;
  ConfirmedNames : list string;
  LabelSelector : string;
  Force : bool
}.
Definition setLabelSelector (v : string) (o : t) : t :=
  {| Names := Names o; ConfirmedNames := ConfirmedNames o;
     LabelSelector := v; Force := Force o |}.
Definition setConfirmedNames (v : list string) (o : t) : t :=
  {| Names := Names o; ConfirmedNames := v;
     LabelSelector := LabelSelector o; Force := Force o |}.
End DeleteOptions.

Module util.

(** [strings.Join(elems, sep)] *)
Fixpoint Join (elems : list string) (sep : string) : string :=
  match elems with
  | [] => ""
  | [e] => e
  | e :: rest => e +:+ sep +:+ Join rest sep
  end.

Definition AppInstanceLabelKey : string := "app.kubernetes.io/instance".

(** Modelled from the spec: [util.BuildLabelSelectorByNames] is not among
    the sources.  Section 4.2: a label selector "built by joining candidate
    resource names into an in-style selector" over the instance label; with
    no names the given selector is kept. *)
Definition BuildLabelSelectorByNames (selector : string)
    (names : list string) : string :=
  match names with
  | [] => selector
  | _ =>
    let label := AppInstanceLabelKey +:+ " in (" +:+ Join names "," +:+ ")" in
    if bool_decide (selector = "") then label
    else selector +:+ "," +:+ label
  end.

End util.

(** ** Kubernetes objects, as the commands see them *)

(** [metav1.Time]: an instant (seconds since the epoch). *)
Definition Time : Type := Z.

Module ObjectMeta.
Record t : Type := mk {
  Name : string;
  Namespace : string;
  Labels : gmap string string;
  Annotations : gmap string string;
  CreationTimestamp : Time
}.
End ObjectMeta.

(** Go's [m[k]] on a [map[string]string]: the zero value when [k] is absent. *)
Definition index (m : gmap string string) (k : string) : string :=
  default "" (m !! k).

(** [unstructured.Unstructured]: the object metadata, which the accessors
    [GetName], [GetAnnotations], ... read, and the rest of the content
    (spec and status) in serialized form. *)
Module Unstructured.
Record t : Type := mk {
  meta : ObjectMeta.t;
  content : string
}.
Definition GetName (u : t) : string := ObjectMeta.Name (meta u).
Definition GetNamespace (u : t) : string := ObjectMeta.Namespace (meta u).
Definition GetLabels (u : t) : gmap string string := ObjectMeta.Labels (meta u).
Definition GetAnnotations (u : t) : gmap string string :=
  ObjectMeta.Annotations (meta u).
Definition GetCreationTimestamp (u : t) : Time :=
  ObjectMeta.CreationTimestamp (meta u).
End Unstructured.

(** [dpv1alpha1.Backup], the fields read by the commands. *)
Module Backup.
Record ActionStatus : Type := mkActionStatus {
  ActionType : string;
  AvailableReplicas : option Z
}.
Record Spec : Type := mkSpec {
  BackupMethod : string
}.
Record Status : Type := mkStatus {
  Phase : string;
  Duration : option Z;
  TotalSize : string;
  Actions : list ActionStatus;
  CompletionTimestamp : option Time;
  Expiration : option Time
}.
Record t : Type := mk {
  meta : ObjectMeta.t;
  spec : Spec;
  status : Status
}.
Definition Name (b : t) : string := ObjectMeta.Name (meta b).
Definition CreationTimestamp (b : t) : Time :=
  ObjectMeta.CreationTimestamp (meta b).
End Backup.

(** [dpv1alpha1.BackupPolicy], the fields read or assigned by the commands. *)
Module BackupPolicy.
Record Spec : Type := mkSpec {
  BackupRepoName : option string;
  BackupMethods : list string
}.
Record t : Type := mk {
  meta : ObjectMeta.t;
  spec : Spec;
  Phase : string
}.
Definition setBackupRepoName (v : option string) (p : t) : t :=
  {| meta := meta p;
     spec := {| BackupRepoName := v; BackupMethods := BackupMethods (spec p) |};
     Phase := Phase p |}.
End BackupPolicy.

Definition BackupPhaseCompleted : string := "Completed".
Definition ActionTypeStatefulSet : string := "StatefulSet".
Definition DefaultBackupPolicyAnnotationKey : string :=
  "dataprotection.kubeblocks.io/is-default-policy".

(** The resource descriptors of package [types]. *)
Inductive GroupVersionResource : Type :=
  | ClusterGVR | BackupGVR | BackupPolicyGVR | BackupRepoGVR | OpsGVR.

(** ** The environment of one invocation

    Everything a command obtains from outside the repository: the answers of
    the API server to the dynamic client, the apimachinery converter between
    unstructured and typed objects (it keeps the metadata and decodes the
    rest, or fails), [RetentionPeriod.ToDuration], the client factory, and
    the clock. *)
Record Clock : Type := mkClock {
  year : nat; month : nat; day : nat;
  hour : nat; minute : nat; second : nat
}.

Record Env : Type := mkEnv {
  dynGet : GroupVersionResource → string → string → result Unstructured.t;
  dynList : GroupVersionResource → string → string → string → result (list Unstructured.t);
  dynUpdate : GroupVersionResource → string → Unstructured.t → result Unstructured.t;
  decodeBackup : string → result (Backup.Spec * Backup.Status);
  decodeBackupPolicy : string → result (BackupPolicy.Spec * string);
  encodeBackupPolicy : BackupPolicy.t → result Unstructured.t;
  ToDuration : string → result Z;
  DynamicClient : result unit;
  KubeConfigNamespace : result string;
  Now : Clock
}.

(** [runtime.DefaultUnstructuredConverter.FromUnstructured(obj.Object, backup)] *)
Definition FromUnstructured_Backup (env : Env) (u : Unstructured.t) :
    result Backup.t :=
  match decodeBackup env (Unstructured.content u) with
  | Ok (sp, st) =>
    Ok {| Backup.meta := Unstructured.meta u;
          Backup.spec := sp; Backup.status := st |}
  | Err e => Err e
  end.

Definition FromUnstructured_BackupPolicy (env : Env) (u : Unstructured.t) :
    result BackupPolicy.t :=
  match decodeBackupPolicy env (Unstructured.content u) with
  | Ok (sp, ph) =>
    Ok {| BackupPolicy.meta := Unstructured.meta u;
          BackupPolicy.spec := sp; BackupPolicy.Phase := ph |}
  | Err e => Err e
  end.

(** ** Observable effects *)

(** One row of the table of [list-backups]: the arguments of [tbl.AddRow],
    with times and durations as values, before [util.TimeFormat] and
    [duration.HumanDuration] render them.  The STATUS cell is the phase,
    with the replica count of the first StatefulSet action when there is
    one. *)
Record BackupRow : Type := mkBackupRow {
  rowName : string;
  rowNamespace : string;
  rowSourceCluster : string;
  rowMethod : string;
  rowStatus : string * option Z;
  rowTotalSize : string;
  rowDuration : option Z;
  rowCreateTime : Time;
  rowCompletionTime : option Time;
  rowExpiration : option Time
}.

Inductive Event : Type :=
  (** requests of the dynamic client *)
  | EvGet (gvr : GroupVersionResource) (namespace name : string)
  | EvList (gvr : GroupVersionResource) (namespace labelSelector fieldSelector : string)
  | EvUpdate (gvr : GroupVersionResource) (namespace : string) (obj : Unstructured.t)
  (** an update function of the edit table is called on [key], [value] *)
  | EvUpdateField (key value : string)
  (** output *)
  | EvFprintln (line : string)
  | EvPrintNotFoundResources
  | EvTablePrint (header : list string) (rows : list BackupRow)
  | EvPrintObjects (format : string) (items : list Unstructured.t).

(** A request that changes the state of the API server. *)
Definition mutating (ev : Event) : bool :=
  match ev with
  | EvUpdate _ _ _ => true
  | _ => false
  end.

(** ** Commands: a log of effects and a result *)

Definition M (A : Type) : Type := (list Event * result A)%type.

#[global] Instance M_ret : MRet M := λ A a, ([], Ok a).
#[global] Instance M_bind : MBind M := λ A B f m,
  match m with
  | (l, Ok a) => let '(l', r) := f a in (l ++ l', r)
  | (l, Err e) => (l, Err e)
  end.

Definition fail {A} (e : string) : M A := ([], Err e).
Definition lift {A} (r : result A) : M A := ([], r).
Definition emit (ev : Event) : M unit := ([ev], Ok tt).

Definition Get (env : Env) (gvr : GroupVersionResource) (ns name : string) :
    M Unstructured.t :=
  ([EvGet gvr ns name], dynGet env gvr ns name).
Definition List_ (env : Env) (gvr : GroupVersionResource) (ns sel fsel : string) :
    M (list Unstructured.t) :=
  ([EvList gvr ns sel fsel], dynList env gvr ns sel fsel).
Definition Update (env : Env) (gvr : GroupVersionResource) (ns : string)
    (obj : Unstructured.t) : M Unstructured.t :=
  ([EvUpdate gvr ns obj], dynUpdate env gvr ns obj).

Definition log {A} (m : M A) : list Event := m.1.
Definition outcome {A} (m : M A) : result A := m.2.

(** ** Package [strings] of the Go library, on byte strings *)

Module strings.

Definition dquote : ascii := "034"%char.
Definition squote : ascii := "'"%char.

(** White space of [strings.TrimSpace], for ASCII text. *)
Definition isSpace (c : ascii) : bool :=
  let n := Ascii.nat_of_ascii c in
  bool_decide (n = 32) || (bool_decide (9 ≤ n) && bool_decide (n ≤ 13)).

Fixpoint TrimLeftFunc (f : ascii → bool) (s : string) : string :=
  match s with
  | EmptyString => EmptyString
  | String c s' => if f c then TrimLeftFunc f s' else s
  end.

Fixpoint TrimRightFunc (f : ascii → bool) (s : string) : string :=
  match s with
  | EmptyString => EmptyString
  | String c s' =>
    match TrimRightFunc f s' with
    | EmptyString => if f c then EmptyString else String c EmptyString
    | t => String c t
    end
  end.

Definition TrimFunc (f : ascii → bool) (s : string) : string :=
  TrimRightFunc f (TrimLeftFunc f s).

(** [strings.TrimSpace(s)] *)
Definition TrimSpace (s : string) : string := TrimFunc isSpace s.

(** [strings.Trim(s, cutset)] for a cutset of one character. *)
Definition Trim (s : string) (cut : ascii) : string :=
  TrimFunc (λ c, bool_decide (c = cut)) s.

(** [strings.HasPrefix(s, prefix)] *)
Fixpoint HasPrefix (s prefix : string) : bool :=
  match prefix, s with
  | EmptyString, _ => true
  | String p prefix', String c s' => bool_decide (c = p) && HasPrefix s' prefix'
  | String _ _, EmptyString => false
  end.

(** [strings.Split(s, sep)] for a separator of one character. *)
Fixpoint Split (s : string) (sep : ascii) : list string :=
  match s with
  | EmptyString => [EmptyString]
  | String c s' =>
    if bool_decide (c = sep) then EmptyString :: Split s' sep
    else
      match Split s' sep with
      | part :: parts => String c part :: parts
      | [] => [String c EmptyString]
      end
  end.

End strings.

(** ** Package [time]: [Format("20060102150405")] *)

Module time.

Definition digit (n : nat) : ascii := Ascii.ascii_of_nat (48 + n `mod` 10).

(** The decimal digits of [n], most significant first. *)
Fixpoint digits (fuel n : nat) (acc : string) : string :=
  match fuel with
  | 0 => acc
  | S fuel' =>
    let acc' := String (digit n) acc in
    if bool_decide (n < 10) then acc' else digits fuel' (n `div` 10) acc'
  end.

Fixpoint zeros (k : nat) (s : string) : string :=
  match k with
  | 0 => s
  | S k' => String "0"%char (zeros k' s)
  end.

(** [appendInt(b, n, width)]: [n] in decimal, padded with zeros on the left
    to at least [width] digits. *)
Definition appendInt (n width : nat) : string :=
  let d := digits (S n) n EmptyString in
  zeros (width - String.length d) d.

(** [t.Format("20060102150405")] *)
Definition Format (t : Clock) : string :=
  appendInt (year t) 4 +:+ appendInt (month t) 2 +:+ appendInt (day t) 2 +:+
  appendInt (hour t) 2 +:+ appendInt (minute t) 2 +:+ appendInt (second t) 2.


End time.

(** ** Package [sort] *)

Module sort.

(** [b] is not [less] than [a]: the order in which [sort.Sort] leaves any
    two elements [a], [b] with [a] before [b]. *)
Definition notLess {A} (less : A → A → bool) : relation A :=
  λ a b, less b a = false.

#[global] Instance notLess_dec {A} (less : A → A → bool) :
  RelDecision (notLess less).
Proof. intros a b. unfold notLess. apply _. Defined.

(** [sort.Sort(data)]: the elements of [data] rearranged so that no element
    is [less] than one before it.  The library does not promise which of
    these rearrangements it produces; the one taken here keeps equal elements
    in their order.  The properties below use only that the result is a
    sorted rearrangement. *)
Definition Sort {A} (less : A → A → bool) (data : list A) : list A :=
  merge_sort (notLess less) data.

End sort.

(** ** Package [action], continued *)

Module CreateOptions.
Record t : Type := mk {
  Namespace : string;
  Name : string;
  Args : list string
}.
End CreateOptions.

Module ListOptions.
Record t : Type := mk {
  GVR : GroupVersionResource;
  Names : list string;
  Namespace : string;
  AllNamespaces : bool;
  LabelSelector : string;
  FieldSelector : string;
  Format : string
}.
Definition setNames (v : list string) (o : t) : t :=
  {| GVR := GVR o;
     Names := v; Namespace := Namespace o; AllNamespaces := AllNamespaces o;
     LabelSelector := LabelSelector o; FieldSelector := FieldSelector o;
     Format := Format o |}.
Definition setNamespace (v : string) (o : t) : t :=
  {| GVR := GVR o;
     Names := Names o; Namespace := v; AllNamespaces := AllNamespaces o;
     LabelSelector := LabelSelector o; FieldSelector := FieldSelector o;
     Format := Format o |}.
End ListOptions.

Module printer.
Definition JSON : string := "json".
Definition YAML : string := "yaml".
End printer.

(** Modelled from the spec: [action.ListOptions.Run] is not among the
    sources.  Section 4.2: the structured output mode is a "JSON/YAML
    passthrough of the raw list"; the selectors are those of the options, and
    when names are given the objects are restricted to them.  The objects are
    handed to the printer of the chosen format as they came from the server. *)
Definition ListOptions_Run (env : Env) (o : ListOptions.t) :
    M (list Unstructured.t) :=
  items ← List_ env (ListOptions.GVR o)
    (if ListOptions.AllNamespaces o then "" else ListOptions.Namespace o)
    (ListOptions.LabelSelector o) (ListOptions.FieldSelector o);
  let shown :=
    match ListOptions.Names o with
    | [] => items
    | names => filter (λ u, Unstructured.GetName u ∈ names) items
    end in
  _ ← emit (EvPrintObjects (ListOptions.Format o) shown);
  mret shown.

(** ** Package [cluster] (the backup and backup-policy commands) *)

Module cluster.

Definition TrueValue : string := "true".

(** [appsv1alpha1.BackupSpec]: the flags of [kbcli cluster backup]. *)
Module BackupSpec.
Record t : Type := mk {
  BackupName : string;
  BackupPolicyName : string;
  BackupMethod : string;
  DeletionPolicy : string;
  RetentionPeriod : string;
  ParentBackupName : string
}.
Definition setBackupName (v : string) (s : t) : t :=
  {| BackupName := v; BackupPolicyName := BackupPolicyName s;
     BackupMethod := BackupMethod s; DeletionPolicy := DeletionPolicy s;
     RetentionPeriod := RetentionPeriod s;
     ParentBackupName := ParentBackupName s |}.
Definition setBackupPolicyName (v : string) (s : t) : t :=
  {| BackupName := BackupName s; BackupPolicyName := v;
     BackupMethod := BackupMethod s; DeletionPolicy := DeletionPolicy s;
     RetentionPeriod := RetentionPeriod s;
     ParentBackupName := ParentBackupName s |}.
End BackupSpec.

Module CreateBackupOptions.
Record t : Type := mk {
  BackupSpec : BackupSpec.t;
  ClusterRef : string;
  OpsType : string;
  OpsRequestName : string;
  CreateOptions : CreateOptions.t
}.
Definition setBackupSpec (v : BackupSpec.t) (o : t) : t :=
  {| BackupSpec := v; ClusterRef := ClusterRef o; OpsType := OpsType o;
     OpsRequestName := OpsRequestName o; CreateOptions := CreateOptions o |}.
Definition setClusterRef (v : string) (o : t) : t :=
  {| BackupSpec := BackupSpec o; ClusterRef := v; OpsType := OpsType o;
     OpsRequestName := OpsRequestName o; CreateOptions := CreateOptions o |}.
Definition setOpsType (v : string) (o : t) : t :=
  {| BackupSpec := BackupSpec o; ClusterRef := ClusterRef o; OpsType := v;
     OpsRequestName := OpsRequestName o; CreateOptions := CreateOptions o |}.
Definition setOpsRequestName (v : string) (o : t) : t :=
  {| BackupSpec := BackupSpec o; ClusterRef := ClusterRef o;
     OpsType := OpsType o; OpsRequestName := v;
     CreateOptions := CreateOptions o |}.
Definition setCreateOptions (v : CreateOptions.t) (o : t) : t :=
  {| BackupSpec := BackupSpec o; ClusterRef := ClusterRef o;
     OpsType := OpsType o; OpsRequestName := OpsRequestName o;
     CreateOptions := v |}.
(** Fields promoted from the embedded structs. *)
Definition Name (o : t) : string := CreateOptions.Name (CreateOptions o).
Definition Namespace (o : t) : string :=
  CreateOptions.Namespace (CreateOptions o).
Definition BackupName (o : t) : string := BackupSpec.BackupName (BackupSpec o).
Definition BackupPolicyName (o : t) : string :=
  BackupSpec.BackupPolicyName (BackupSpec o).
Definition BackupMethod (o : t) : string :=
  BackupSpec.BackupMethod (BackupSpec o).
Definition RetentionPeriod (o : t) : string :=
  BackupSpec.RetentionPeriod (BackupSpec o).
Definition ParentBackupName (o : t) : string :=
  BackupSpec.ParentBackupName (BackupSpec o).
End CreateBackupOptions.

Import CreateBackupOptions.

(** [appsv1alpha1.BackupType] *)
Definition BackupType : string := "Backup".

Section CompleteBackup.

(** [action.CreateOptions.Complete] is not among the sources: it acts on the
    embedded [CreateOptions] only, and may fail. *)
Variable Complete : CreateOptions.t → result CreateOptions.t.

(** [func (o *CreateBackupOptions) CompleteBackup() error] *)
Definition CompleteBackup (now : Clock) (o : t) : result t :=
  match Complete (CreateOptions o) with
  | Err err => Err err
  | Ok base =>
    let o := setCreateOptions base o in
    (* generate backupName *)
    let o :=
      if bool_decide (String.length (BackupName o) = 0) then
        setBackupSpec
          (BackupSpec.setBackupName
             (util.Join ["backup"; Namespace o; Name o; time.Format now] "-")
             (BackupSpec o)) o
      else o in
    (* set ops type, ops request name and clusterRef *)
    let o := setOpsType BackupType o in
    let o := setOpsRequestName (BackupName o) o in
    let o := setClusterRef (Name o) o in
    match Complete (CreateOptions o) with
    | Err err => Err err
    | Ok base => Ok (setCreateOptions base o)
    end
  end.

End CompleteBackup.

(** [func (o *CreateBackupOptions) getDefaultBackupPolicy() (string, error)] *)
Definition getDefaultBackupPolicy (env : Env) (o : t) : M string :=
  clusterObj ← Get env ClusterGVR (Namespace o) (Name o);
  objs ← List_ env BackupPolicyGVR (Namespace o)
    (util.AppInstanceLabelKey +:+ "=" +:+ Unstructured.GetName clusterObj) "";
  if bool_decide (length objs = 0) then
    fail ("not found any backup policy for cluster " +:+
          String strings.dquote (Name o) +:+ String strings.dquote "")
  else
    let defaultBackupPolicies :=
      filter (λ obj,
        index (Unstructured.GetAnnotations obj)
          DefaultBackupPolicyAnnotationKey = TrueValue) objs in
    if bool_decide (length defaultBackupPolicies = 0) then
      fail ("not found any default backup policy for cluster " +:+
            String strings.dquote (Name o) +:+ String strings.dquote "")
    else if bool_decide (1 < length defaultBackupPolicies) then
      fail ("cluster " +:+ String strings.dquote (Name o) +:+
            String strings.dquote " has multiple default backup policies")
    else
      match defaultBackupPolicies with
      | p :: _ => mret (Unstructured.GetName p)
      | [] => fail "index out of range"
      end.

(** [func (o *CreateBackupOptions) completeDefaultBackupPolicy() error] *)
Definition completeDefaultBackupPolicy (env : Env) (o : t) : M t :=
  defaultBackupPolicyName ← getDefaultBackupPolicy env o;
  mret (setBackupSpec
          (BackupSpec.setBackupPolicyName defaultBackupPolicyName
             (BackupSpec o)) o).

(** [func (o *CreateBackupOptions) Validate() error] *)
Definition Validate (env : Env) (o : t) : M t :=
  if bool_decide (Name o = "") then fail "missing cluster name"
  else
    (* if backup policy is not specified, use the default backup policy *)
    o ← (if bool_decide (BackupPolicyName o = "")
         then completeDefaultBackupPolicy env o else mret o);
    (* check if backup policy exists *)
    backupPolicyObj ← Get env BackupPolicyGVR (Namespace o) (BackupPolicyName o);
    _ ← lift (FromUnstructured_BackupPolicy env backupPolicyObj);
    if bool_decide (BackupMethod o = "") then
      fail "backup method can not be empty, you can specify it by --method"
    else
      (* valid retention period *)
      _ ← (if bool_decide (RetentionPeriod o ≠ "") then
             match ToDuration env (RetentionPeriod o) with
             | Err _ =>
               fail ("invalid retention period, please refer to examples " +:+
                     "[1y, 1m, 1d, 1h, 1m] or combine them [1y1m1d1h1m]")
             | Ok _ => mret tt
             end
           else mret tt);
      (* check if parent backup exists *)
      _ ← (if bool_decide (ParentBackupName o ≠ "") then
             parentBackupObj ←
               Get env BackupGVR (Namespace o) (ParentBackupName o);
             parentBackup ← lift (FromUnstructured_Backup env parentBackupObj);
             if bool_decide
                  (Backup.Phase (Backup.status parentBackup)
                   ≠ BackupPhaseCompleted) then
               fail ("parent backup " +:+ ParentBackupName o +:+
                     " is not completed")
             else if bool_decide
                  (index (ObjectMeta.Labels (Backup.meta parentBackup))
                     util.AppInstanceLabelKey ≠ Name o) then
               fail ("parent backup " +:+ ParentBackupName o +:+
                     " is not belong to cluster " +:+ Name o)
             else mret tt
           else mret tt);
      mret o.

Module ListBackupOptions.
Record t : Type := mk {
  ListOptions : ListOptions.t;
  BackupName : string
}.
End ListBackupOptions.

(** Modelled from the spec: the type [unstructuredList], whose [Less] orders
    the list for [sort.Sort], is not among the sources.  Section 4.2:
    "Tabular mode sorts by creation timestamp ascending"; [Less(i, j)] holds
    when object [i] was created before object [j]. *)
Definition unstructuredList_Less (a b : Unstructured.t) : bool :=
  bool_decide
    (Unstructured.GetCreationTimestamp a < Unstructured.GetCreationTimestamp b)%Z.

(** [backupNameMap[name] = true] for each [name] of [o.Names] *)
Definition makeNameMap (names : list string) : gmap string bool :=
  foldl (λ m name, <[name := true]> m) ∅ names.

(** [backupNameMap[name]]: [false] when [name] is absent. *)
Definition inNameMap (m : gmap string bool) (name : string) : bool :=
  default false (m !! name).

(** The replica count of the first action of type StatefulSet. *)
Fixpoint availableReplicas (actions : list Backup.ActionStatus) : option Z :=
  match actions with
  | [] => None
  | v :: rest =>
    if bool_decide (Backup.ActionType v = ActionTypeStatefulSet)
    then Backup.AvailableReplicas v
    else availableReplicas rest
  end.

(** The arguments of [tbl.AddRow] for one backup. *)
Definition backupRow (backup : Backup.t) : BackupRow :=
  {| rowName := ObjectMeta.Name (Backup.meta backup);
     rowNamespace := ObjectMeta.Namespace (Backup.meta backup);
     rowSourceCluster :=
       index (ObjectMeta.Labels (Backup.meta backup)) util.AppInstanceLabelKey;
     rowMethod := Backup.BackupMethod (Backup.spec backup);
     rowStatus :=
       (Backup.Phase (Backup.status backup),
        availableReplicas (Backup.Actions (Backup.status backup)));
     rowTotalSize := Backup.TotalSize (Backup.status backup);
     rowDuration := Backup.Duration (Backup.status backup);
     rowCreateTime := ObjectMeta.CreationTimestamp (Backup.meta backup);
     rowCompletionTime := Backup.CompletionTimestamp (Backup.status backup);
     rowExpiration := Backup.Expiration (Backup.status backup) |}.

Definition backupListHeader : list string :=
  ["NAME"; "NAMESPACE"; "SOURCE-CLUSTER"; "METHOD"; "STATUS"; "TOTAL-SIZE";
   "DURATION"; "CREATE-TIME"; "COMPLETION-TIME"; "EXPIRATION"].

(** The loop of [PrintBackupList] over [backupList.Items]; [tbl] is the rows
    added so far.  A conversion error leaves the function before anything is
    printed. *)
Fixpoint addBackupRows (env : Env) (names : list string)
    (backupNameMap : gmap string bool) (items : list Unstructured.t)
    (tbl : list BackupRow) : result (list BackupRow) :=
  match items with
  | [] => Ok tbl
  | obj :: rest =>
    match FromUnstructured_Backup env obj with
    | Err err => Err err
    | Ok backup =>
      if bool_decide (0 < length names)
         && negb (inNameMap backupNameMap (Backup.Name backup))
      then addBackupRows env names backupNameMap rest tbl
      else addBackupRows env names backupNameMap rest (tbl ++ [backupRow backup])
    end
  end.

Section PrintBackupList.

(** [action.ListOptions.Run], which is not among the sources. *)
Variable Run : Env → ListOptions.t → M (list Unstructured.t).

(** [func PrintBackupList(o ListBackupOptions) error] *)
Definition PrintBackupList (env : Env) (o : ListBackupOptions.t) : M unit :=
  let lo := ListBackupOptions.ListOptions o in
  let backupNameMap := makeNameMap (ListOptions.Names lo) in
  (* if format is JSON or YAML, use default printer to output the result. *)
  if bool_decide (ListOptions.Format lo = printer.JSON)
     || bool_decide (ListOptions.Format lo = printer.YAML) then
    let lo :=
      if bool_decide (ListBackupOptions.BackupName o ≠ "")
      then ListOptions.setNames [ListBackupOptions.BackupName o] lo
      else lo in
    _ ← Run env lo;
    mret tt
  else
    _ ← lift (DynamicClient env);
    let lo :=
      if ListOptions.AllNamespaces lo then ListOptions.setNamespace "" lo
      else lo in
    backupList ← List_ env BackupGVR (ListOptions.Namespace lo)
      (ListOptions.LabelSelector lo) (ListOptions.FieldSelector lo);
    if bool_decide (length backupList = 0) then emit EvPrintNotFoundResources
    else
      (* sort the unstructured objects with the creationTimestamp in
         positive order *)
      let items := sort.Sort unstructuredList_Less backupList in
      rows ← lift (addBackupRows env (ListOptions.Names lo) backupNameMap
                     items []);
      emit (EvTablePrint backupListHeader rows).

End PrintBackupList.

(** [func completeForDeleteBackup(o *action.DeleteOptions, args []string) error] *)
Definition completeForDeleteBackup (o : DeleteOptions.t) (args : list string) :
    result DeleteOptions.t :=
  if bool_decide (length args = 0) then Err "Missing cluster name"
  else if bool_decide (1 < length args) then
    Err "Only supported delete the Backup of one cluster"
  else if negb (DeleteOptions.Force o)
          && bool_decide (length (DeleteOptions.Names o) = 0) then
    Err "Missing --name as backup name."
  else
    let o :=
      if DeleteOptions.Force o
         && bool_decide (length (DeleteOptions.Names o) = 0) then
        (* do force action, for --force and --name unset, delete all backups
           of the cluster *)
        let o :=
          DeleteOptions.setLabelSelector
            (util.BuildLabelSelectorByNames (DeleteOptions.LabelSelector o) args)
            o in
        DeleteOptions.setConfirmedNames args o
      else o in
    Ok (DeleteOptions.setConfirmedNames (DeleteOptions.Names o) o).

(** The [Run] closure of [NewDeleteBackupCmd]; [util.CheckErr] ends the
    process on an error.  [Run] stands for [action.DeleteOptions.Run]. *)
Definition NewDeleteBackupCmd_Run (Run : DeleteOptions.t → M unit)
    (o : DeleteOptions.t) (args : list string) : M unit :=
  o ← lift (completeForDeleteBackup o args);
  Run o.

(** *** edit-backup-policy *)

Definition updateBackupPolicyFieldFunc : Type :=
  BackupPolicy.t → string → M BackupPolicy.t.

Record editorRow : Type := mkEditorRow {
  key : string;
  jsonpath : string;
  updateFunc : updateBackupPolicyFieldFunc
}.

Module editBackupPolicyOptions.
Record t : Type := mk {
  namespace : string;
  name : string;
  editContent : list editorRow;
  editContentKeyMap : gmap string updateBackupPolicyFieldFunc;
  original : string;
  target : string;
  values : list string
}.
Definition setName (v : string) (o : t) : t :=
  mk (namespace o) v (editContent o) (editContentKeyMap o)
     (original o) (target o) (values o).
Definition setNamespace (v : string) (o : t) : t :=
  mk v (name o) (editContent o) (editContentKeyMap o)
     (original o) (target o) (values o).
Definition setEditContent (v : list editorRow) (o : t) : t :=
  mk (namespace o) (name o) v (editContentKeyMap o)
     (original o) (target o) (values o).
Definition setEditContentKeyMap
    (v : gmap string updateBackupPolicyFieldFunc) (o : t) : t :=
  mk (namespace o) (name o) (editContent o) v
     (original o) (target o) (values o).
Definition setTarget (v : string) (o : t) : t :=
  mk (namespace o) (name o) (editContent o) (editContentKeyMap o)
     (original o) v (values o).
End editBackupPolicyOptions.

(** The closure [updateRepoName] of [complete]. *)
Definition updateRepoName (env : Env) : updateBackupPolicyFieldFunc :=
  λ backupPolicy targetVal,
    (* check if the backup repo exists *)
    _ ← (if bool_decide (targetVal ≠ "") then
           _ ← Get env BackupRepoGVR "" targetVal; mret tt
         else mret tt);
    mret (if bool_decide (targetVal ≠ "")
          then BackupPolicy.setBackupRepoName (Some targetVal) backupPolicy
          else BackupPolicy.setBackupRepoName None backupPolicy).

(** [func (o *editBackupPolicyOptions) complete(args []string) error].
    The table has one row, whose update function is not nil, so the check
    for a nil [updateFunc] never fails. *)
Definition complete (env : Env) (o : editBackupPolicyOptions.t)
    (args : list string) : result editBackupPolicyOptions.t :=
  match args with
  | [] => Err "missing backupPolicy name"
  | _ :: _ :: _ =>
    Err "only support to update one backupPolicy or quote cronExpression"
  | [arg0] =>
    let o := editBackupPolicyOptions.setName arg0 o in
    match KubeConfigNamespace env with
    | Err err => Err err
    | Ok ns =>
      let o := editBackupPolicyOptions.setNamespace ns o in
      match DynamicClient env with
      | Err err => Err err
      | Ok _ =>
        let o := editBackupPolicyOptions.setEditContent
          [ {| key := "backupRepoName"; jsonpath := "backupRepoName";
               updateFunc := updateRepoName env |} ] o in
        Ok (editBackupPolicyOptions.setEditContentKeyMap
              (foldl (λ m v, <[key v := updateFunc v]> m) ∅
                 (editBackupPolicyOptions.editContent o)) o)
      end
    end
  end.

Definition invalidRow (v : string) : string :=
  "invalid row: " +:+ v +:+ ", format should be " +:+
  String strings.dquote ("key=value" +:+ String strings.dquote "").

Definition invalidKey (k : string) : string := "invalid key: " +:+ k.

(** The loop of [applyChanges] over [o.values]; [target] is [o.target]. *)
Fixpoint applyRows (keyMap : gmap string updateBackupPolicyFieldFunc)
    (values : list string) (target : string) (backupPolicy : BackupPolicy.t) :
    M (string * BackupPolicy.t) :=
  match values with
  | [] => mret (target, backupPolicy)
  | v :: rest =>
    let row := strings.TrimSpace v in
    if strings.HasPrefix row "#" || bool_decide (row = "") then
      applyRows keyMap rest target backupPolicy
    else
      let target := target +:+ row in
      match strings.Split row "="%char with
      | [arr0; arr1] =>
        match keyMap !! arr0 with
        | None => fail (invalidKey arr0)
        | Some updateFn =>
          let arr1 := strings.Trim arr1 strings.dquote in
          let arr1 := strings.Trim arr1 strings.squote in
          _ ← emit (EvUpdateField arr0 arr1);
          backupPolicy ← updateFn backupPolicy arr1;
          applyRows keyMap rest target backupPolicy
        end
      | _ => fail (invalidRow v)
      end
  end.

(** [func (o *editBackupPolicyOptions) applyChanges(backupPolicy) error] *)
Definition applyChanges (env : Env) (o : editBackupPolicyOptions.t)
    (backupPolicy : BackupPolicy.t) :
    M (editBackupPolicyOptions.t * BackupPolicy.t) :=
  '(target, backupPolicy) ←
    applyRows (editBackupPolicyOptions.editContentKeyMap o)
      (editBackupPolicyOptions.values o)
      (editBackupPolicyOptions.target o) backupPolicy;
  let o := editBackupPolicyOptions.setTarget target o in
  (* if no changes, return. *)
  if bool_decide (editBackupPolicyOptions.original o
                  = editBackupPolicyOptions.target o) then
    _ ← emit (EvFprintln "updated (no change)");
    mret (o, backupPolicy)
  else
    obj ← lift (encodeBackupPolicy env backupPolicy);
    _ ← Update env BackupPolicyGVR
          (ObjectMeta.Namespace (BackupPolicy.meta backupPolicy)) obj;
    _ ← emit (EvFprintln "updated");
    mret (o, backupPolicy).

End cluster.

(** ** Vocabulary of the statements *)




(** Every effect of a command satisfies [P]. *)
Definition logAll {A} (P : Event → Prop) (m : M A) : Prop :=
  Forall P (log m).

(** A command that sends no mutating request. *)
Definition readOnly {A} (m : M A) : Prop :=
  logAll (λ ev, mutating ev = false) m.

(** A request for a backup object. *)
Definition isBackupGet (ev : Event) : Prop :=
  match ev with
  | EvGet BackupGVR _ _ => True
  | _ => False
  end.

(** The backup policies that carry the default annotation. *)
Definition defaultPolicies (objs : list Unstructured.t) : list Unstructured.t :=
  filter (λ obj,
    index (Unstructured.GetAnnotations obj) DefaultBackupPolicyAnnotationKey
    = cluster.TrueValue) objs.

Definition quoted (s : string) : string :=
  String strings.dquote s +:+ String strings.dquote "".

(** The three stages of [cluster.Validate] after the check of the cluster
    name, named so that statements can refer to them
    (see [Validate_stages]). *)
Definition resolvePolicy (env : Env) (o : cluster.CreateBackupOptions.t) :
    M cluster.CreateBackupOptions.t :=
  if bool_decide (cluster.CreateBackupOptions.BackupPolicyName o = "")
  then cluster.completeDefaultBackupPolicy env o else mret o.

Definition checkParentBackup (env : Env) (o : cluster.CreateBackupOptions.t) :
    M unit :=
  if bool_decide (cluster.CreateBackupOptions.ParentBackupName o ≠ "") then
    parentBackupObj ←
      Get env BackupGVR (cluster.CreateBackupOptions.Namespace o)
        (cluster.CreateBackupOptions.ParentBackupName o);
    parentBackup ← lift (FromUnstructured_Backup env parentBackupObj);
    if bool_decide
         (Backup.Phase (Backup.status parentBackup) ≠ BackupPhaseCompleted) then
      fail ("parent backup " +:+ cluster.CreateBackupOptions.ParentBackupName o
            +:+ " is not completed")
    else if bool_decide
         (index (ObjectMeta.Labels (Backup.meta parentBackup))
            util.AppInstanceLabelKey ≠ cluster.CreateBackupOptions.Name o) then
      fail ("parent backup " +:+ cluster.CreateBackupOptions.ParentBackupName o
            +:+ " is not belong to cluster "
            +:+ cluster.CreateBackupOptions.Name o)
    else mret tt
  else mret tt.

Definition checkPolicyAndMethod (env : Env)
    (o : cluster.CreateBackupOptions.t) : M unit :=
  backupPolicyObj ←
    Get env BackupPolicyGVR (cluster.CreateBackupOptions.Namespace o)
      (cluster.CreateBackupOptions.BackupPolicyName o);
  _ ← lift (FromUnstructured_BackupPolicy env backupPolicyObj);
  if bool_decide (cluster.CreateBackupOptions.BackupMethod o = "") then
    fail "backup method can not be empty, you can specify it by --method"
  else
    if bool_decide (cluster.CreateBackupOptions.RetentionPeriod o ≠ "") then
      match ToDuration env (cluster.CreateBackupOptions.RetentionPeriod o) with
      | Err _ =>
        fail ("invalid retention period, please refer to examples " +:+
              "[1y, 1m, 1d, 1h, 1m] or combine them [1y1m1d1h1m]")
      | Ok _ => mret tt
      end
    else mret tt.

(** The backups that the table of [list-backups] shows: all of them when no
    name is given, else those whose name is one of [names]. *)
Definition shown (names : list string) (backup : Backup.t) : Prop :=
  names = [] ∨ Backup.Name backup ∈ names.

#[global] Instance shown_dec names backup : Decision (shown names backup).
Proof. unfold shown. apply _. Defined.

(** The typed backups of a list of unstructured objects, in order; objects
    that do not convert are left out. *)
Definition typedBackups (env : Env) (items : list Unstructured.t) :
    list Backup.t :=
  omap (λ u, match FromUnstructured_Backup env u with
             | Ok b => Some b
             | Err _ => None
             end) items.

(** Not created after. *)
Definition createdNoLater (a b : Backup.t) : Prop :=
  (Backup.CreationTimestamp a ≤ Backup.CreationTimestamp b)%Z.

(** The namespace of the list request of [PrintBackupList]. *)
Definition listNamespace (lo : ListOptions.t) : string :=
  if ListOptions.AllNamespaces lo then "" else ListOptions.Namespace lo.

(** What [applyChanges] does with one line of [o.values]: it skips a comment
    or a blank line, rejects a line that is not [key=value] or whose key is
    not in the table, and otherwise applies the update function of the key
    to the unquoted value (see [applyRows_cons]). *)
Inductive RowKind : Type :=
  | Skipped
  | Rejected (err : string)
  | Applies (key value : string) (updateFn : cluster.updateBackupPolicyFieldFunc).

Definition classify (keyMap : gmap string cluster.updateBackupPolicyFieldFunc)
    (v : string) : RowKind :=
  let row := strings.TrimSpace v in
  if strings.HasPrefix row "#" || bool_decide (row = "") then Skipped
  else
    match strings.Split row "="%char with
    | [arr0; arr1] =>
      match keyMap !! arr0 with
      | None => Rejected (cluster.invalidKey arr0)
      | Some updateFn =>
        Applies arr0
          (strings.Trim (strings.Trim arr1 strings.dquote) strings.squote)
          updateFn
      end
    | _ => Rejected (cluster.invalidRow v)
    end.




(** The text that the lines of [rows] add to [o.target]. *)
Fixpoint targetText (rows : list string) : string :=
  match rows with
  | [] => ""
  | v :: rest =>
    let row := strings.TrimSpace v in
    if strings.HasPrefix row "#" || bool_decide (row = "") then targetText rest
    else row +:+ targetText rest
  end.

(** A read request. *)
Definition isRead (ev : Event) : Prop :=
  match ev with
  | EvGet _ _ _ | EvList _ _ _ _ => True
  | _ => False
  end.

(** An edit table whose update functions only read from the API server, as
    the one that [cluster.complete] builds does. *)
Definition readsOnly
    (keyMap : gmap string cluster.updateBackupPolicyFieldFunc) : Prop :=
  ∀ k updateFn, keyMap !! k = Some updateFn →
    ∀ backupPolicy val, logAll isRead (updateFn backupPolicy val).


(** ** An example cluster

    Namespace [default] holds the cluster [mycluster] with two backup
    policies, of which [mycluster-backup-policy] is the default, and three
    backups: [b1] (completed, created at 100), [b2] (completed, created at
    200) and [b3] (failed, created at 50).  There is no backup repository.
    The serialized content of a backup is its phase. *)
Module example.

Definition meta (name : string) (annotations : gmap string string)
    (created : Time) : ObjectMeta.t :=
  {| ObjectMeta.Name := name;
     ObjectMeta.Namespace := "default";
     ObjectMeta.Labels := {[ util.AppInstanceLabelKey := "mycluster" ]};
     ObjectMeta.Annotations := annotations;
     ObjectMeta.CreationTimestamp := created |}.

Definition mycluster : Unstructured.t :=
  Unstructured.mk (meta "mycluster" ∅ 10%Z) "".
Definition policy1 : Unstructured.t :=
  Unstructured.mk
    (meta "mycluster-backup-policy"
       {[ DefaultBackupPolicyAnnotationKey := "true" ]} 20%Z) "".
Definition policy2 : Unstructured.t :=
  Unstructured.mk (meta "mycluster-backup-policy-hscale" ∅ 30%Z) "".
Definition b1 : Unstructured.t := Unstructured.mk (meta "b1" ∅ 100%Z) "Completed".
Definition b2 : Unstructured.t := Unstructured.mk (meta "b2" ∅ 200%Z) "Completed".
Definition b3 : Unstructured.t := Unstructured.mk (meta "b3" ∅ 50%Z) "Failed".

Definition notFound {A} : result A := Err "not found".

Definition find (name : string) (objs : list Unstructured.t) :
    result Unstructured.t :=
  match filter (λ u, Unstructured.GetName u = name) objs with
  | u :: _ => Ok u
  | [] => notFound
  end.

Definition objects (gvr : GroupVersionResource) : list Unstructured.t :=
  match gvr with
  | ClusterGVR => [mycluster]
  | BackupPolicyGVR => [policy1; policy2]
  | BackupGVR => [b1; b2; b3]
  | BackupRepoGVR | OpsGVR => []
  end.

Definition env : Env :=
  {| dynGet := λ gvr ns name,
       if bool_decide (ns = "default") then find name (objects gvr)
       else notFound;
     dynList := λ gvr ns sel fsel, Ok (objects gvr);
     dynUpdate := λ gvr ns obj, Ok obj;
     decodeBackup := λ content,
       Ok (Backup.mkSpec "xtrabackup",
           Backup.mkStatus content None "" [] None None);
     decodeBackupPolicy := λ content,
       Ok (BackupPolicy.mkSpec None ["xtrabackup"], "Available");
     encodeBackupPolicy := λ p, Ok (Unstructured.mk (BackupPolicy.meta p) "");
     ToDuration := λ s, Ok 0%Z;
     DynamicClient := Ok tt;
     KubeConfigNamespace := Ok "default";
     Now := mkClock 2023 6 16 19 0 23 |}.

(** [kbcli cluster backup mycluster --method xtrabackup
    --parent-backup <parent>], after completion. *)
Definition backupOptions (policy parent : string) :
    cluster.CreateBackupOptions.t :=
  cluster.CreateBackupOptions.mk
    (cluster.BackupSpec.mk "backup-default-mycluster-20230616190023" policy
       "xtrabackup" "Delete" "" parent)
    "mycluster" "Backup" "backup-default-mycluster-20230616190023"
    (CreateOptions.mk "default" "mycluster" ["mycluster"]).

(** [kbcli cluster edit-backup-policy mycluster-backup-policy
    --set backupRepoName=r1 --set bogus=1] *)
Definition editOptions (values : list string) :
    cluster.editBackupPolicyOptions.t :=
  match cluster.complete env
          (cluster.editBackupPolicyOptions.mk "" "" [] ∅ "" "" values)
          ["mycluster-backup-policy"] with
  | Ok o => o
  | Err _ => cluster.editBackupPolicyOptions.mk "" "" [] ∅ "" "" values
  end.

Definition backupPolicy : BackupPolicy.t :=
  {| BackupPolicy.meta := Unstructured.meta policy1;
     BackupPolicy.spec := BackupPolicy.mkSpec None ["xtrabackup"];
     BackupPolicy.Phase := "Available" |}.

End example.

(** ** Further example data *)

(** The example cluster seen through a converter that rejects the content of
    the backup [b3]. *)
Definition strictEnv : Env :=
  {| dynGet := dynGet example.env;
     dynList := dynList example.env;
     dynUpdate := dynUpdate example.env;
     decodeBackup := λ content,
       if bool_decide (content = "Failed") then Err "cannot convert"
       else decodeBackup example.env content;
     decodeBackupPolicy := decodeBackupPolicy example.env;
     encodeBackupPolicy := encodeBackupPolicy example.env;
     ToDuration := ToDuration example.env;
     DynamicClient := DynamicClient example.env;
     KubeConfigNamespace := KubeConfigNamespace example.env;
     Now := Now example.env |}.

(** ** edit-backup-policy: the text handed to the editor *)

Definition newline : ascii := "010"%char.



(** [o.original = v], [o.values = v] *)
Definition setOriginal (v : string) (o : cluster.editBackupPolicyOptions.t) :
    cluster.editBackupPolicyOptions.t :=
  cluster.editBackupPolicyOptions.mk
    (cluster.editBackupPolicyOptions.namespace o)
    (cluster.editBackupPolicyOptions.name o)
    (cluster.editBackupPolicyOptions.editContent o)
    (cluster.editBackupPolicyOptions.editContentKeyMap o)
    v
    (cluster.editBackupPolicyOptions.target o)
    (cluster.editBackupPolicyOptions.values o).

Definition setValues (v : list string)
    (o : cluster.editBackupPolicyOptions.t) :
    cluster.editBackupPolicyOptions.t :=
  cluster.editBackupPolicyOptions.mk
    (cluster.editBackupPolicyOptions.namespace o)
    (cluster.editBackupPolicyOptions.name o)
    (cluster.editBackupPolicyOptions.editContent o)
    (cluster.editBackupPolicyOptions.editContentKeyMap o)
    (cluster.editBackupPolicyOptions.original o)
    (cluster.editBackupPolicyOptions.target o)
    v.

(** A [reflect.Value] as [getValueWithJsonpath] looks at it: a pointer or an
    interface, nil or holding a value, or a value of another kind; the
    strings are the values formatted with [%v]. *)
Inductive ReflectValue : Type :=
  | PtrOrInterface (elem : option string)
  | OtherKind (text : string).

(** The loop of [getValueWithJsonpath] over the results: the first result
    that is not empty decides. *)
Fixpoint firstValue (values : list (list ReflectValue)) : option string :=
  match values with
  | [] => None
  | [] :: rest => firstValue rest
  | (PtrOrInterface None :: _) :: _ => None
  | (PtrOrInterface (Some val) :: _) :: _ => Some val
  | (OtherKind val :: _) :: _ => Some val
  end.

(** The header of the editor text, line by line. *)
Definition editorHeader : list string :=
  ["# Please edit the object below. Lines beginning with a '#' will be ignored,";
   "# and an empty file will abort the edit. If an error occurs while saving this file will be";
   "# reopened with the relevant failures.";
   "#"].

(** The closure [addHeader] of [runWithEditor]: each line of the header, the
    contents and a final line break. *)
Definition addHeader (contents : string) : string :=
  foldr (λ line text, line +:+ String newline text)
    (contents +:+ String newline "") editorHeader.

Section editor.

(** The jsonpath library applied to the spec of a policy:
    [get.RelaxedJSONPathExpression], [Parse] and [FindResults], with missing
    keys allowed. *)
Variable FindResults :
  BackupPolicy.Spec → string → result (list (list ReflectValue)).

(** [editor.LaunchTempFile(prefix, "", text)]: what the user saved. *)
Variable LaunchTempFile : string → string → result string.

(** [util.GetResourceObjectFromGVR(types.BackupPolicyGVR(), key, o.dynamic,
    &backupPolicy)], which is not among the sources: it may send requests
    and yields the typed policy. *)
Variable GetResourceObjectFromGVR : Env → string → string → M BackupPolicy.t.

(** [func (o *editBackupPolicyOptions) getValueWithJsonpath(spec, path)] *)
Definition getValueWithJsonpath (spec : BackupPolicy.Spec) (path : string) :
    result (option string) :=
  match FindResults spec path with
  | Err err => Err err
  | Ok values => Ok (firstValue values)
  end.

(** The loop of [buildEditorContent] over [o.editContent]; [original] is
    [o.original], which keeps what was added to it also when a later row
    fails. *)
Fixpoint buildEditorRows (spec : BackupPolicy.Spec)
    (rows : list cluster.editorRow) (original : string)
    (contents : list string) : string * result (list string) :=
  match rows with
  | [] => (original, Ok contents)
  | v :: rest =>
    match getValueWithJsonpath spec (cluster.jsonpath v) with
    | Err err => (original, Err err)
    | Ok None => buildEditorRows spec rest original contents
    | Ok (Some val) =>
      let row := cluster.key v +:+ "=" +:+ val in
      buildEditorRows spec rest (original +:+ row) (contents ++ [row])
    end
  end.

(** [func (o *editBackupPolicyOptions) buildEditorContent(backPolicy)] *)
Definition buildEditorContent (o : cluster.editBackupPolicyOptions.t)
    (backPolicy : BackupPolicy.t) :
    cluster.editBackupPolicyOptions.t * result string :=
  let '(original, r) :=
    buildEditorRows (BackupPolicy.spec backPolicy)
      (cluster.editBackupPolicyOptions.editContent o)
      (cluster.editBackupPolicyOptions.original o) [] in
  (setOriginal original o,
   match r with
   | Ok contents => Ok (util.Join contents (String newline ""))
   | Err err => Err err
   end).

(** [func (o *editBackupPolicyOptions) runWithEditor(backupPolicy)]; [isTest]
    is the field [o.isTest]. *)
Definition runWithEditor (isTest : bool)
    (o : cluster.editBackupPolicyOptions.t) (backupPolicy : BackupPolicy.t) :
    cluster.editBackupPolicyOptions.t * result string :=
  match buildEditorContent o backupPolicy with
  | (o, Err err) => (o, Err err)
  | (o, Ok contents) =>
    if isTest then (o, Ok "")
    else
      (o, LaunchTempFile
            (ObjectMeta.Name (BackupPolicy.meta backupPolicy) +:+ "-edit-")
            (addHeader contents))
  end.

(** [func (o *editBackupPolicyOptions) runEditBackupPolicy() error] *)
Definition runEditBackupPolicy (isTest : bool) (env : Env)
    (o : cluster.editBackupPolicyOptions.t) :
    M (cluster.editBackupPolicyOptions.t * BackupPolicy.t) :=
  backupPolicy ←
    GetResourceObjectFromGVR env (cluster.editBackupPolicyOptions.namespace o)
      (cluster.editBackupPolicyOptions.name o);
  if bool_decide (length (cluster.editBackupPolicyOptions.values o) = 0) then
    match runWithEditor isTest o backupPolicy with
    | (o, Err err) => fail err
    | (o, Ok edited) =>
      cluster.applyChanges env (setValues (strings.Split edited newline) o)
        backupPolicy
    end
  else cluster.applyChanges env o backupPolicy.

End editor.





(** The example cluster with a backup repository [repo1], and the example
    policy using it. *)
Definition repoEnv : Env :=
  {| dynGet := λ gvr ns name,
       match gvr with
       | BackupRepoGVR =>
         if bool_decide (name = "repo1")
         then Ok (Unstructured.mk (example.meta "repo1" ∅ 5%Z) "")
         else example.notFound
       | _ => dynGet example.env gvr ns name
       end;
     dynList := dynList example.env;
     dynUpdate := dynUpdate example.env;
     decodeBackup := decodeBackup example.env;
     decodeBackupPolicy := decodeBackupPolicy example.env;
     encodeBackupPolicy := encodeBackupPolicy example.env;
     ToDuration := ToDuration example.env;
     DynamicClient := DynamicClient example.env;
     KubeConfigNamespace := KubeConfigNamespace example.env;
     Now := Now example.env |}.

Definition policyWithRepo : BackupPolicy.t :=
  BackupPolicy.setBackupRepoName (Some "repo1") example.backupPolicy.

(** [kbcli cluster edit-backup-policy mycluster-backup-policy] in that
    cluster, after [complete]. *)
Definition repoEditOptions : cluster.editBackupPolicyOptions.t :=
  match cluster.complete repoEnv
          (cluster.editBackupPolicyOptions.mk "" "" [] ∅ "" "" [])
          ["mycluster-backup-policy"] with
  | Ok o => o
  | Err _ => cluster.editBackupPolicyOptions.mk "" "" [] ∅ "" "" []
  end.

(** The jsonpath library on the one path of the table, an editor that saves
    the text as it is, one that saves an empty file, and the fetch of the
    example policy. *)
Definition findRepoName (spec : BackupPolicy.Spec) (path : string) :
    result (list (list ReflectValue)) :=
  if bool_decide (path = "backupRepoName")
  then Ok [[PtrOrInterface (BackupPolicy.BackupRepoName spec)]]
  else Ok [].


Definition saveEmpty (prefix text : string) : result string := Ok "".

Definition fetchPolicyWithRepo (env : Env) (ns name : string) :
    M BackupPolicy.t :=
  ([EvGet BackupPolicyGVR ns name], Ok policyWithRepo).

(** ** list-backup-policy *)

(** The arguments of [tbl.AddRow] for one backup policy; the creation time
    is kept as the instant that [util.TimeFormat] renders. *)
Record BackupPolicyRow : Type := mkBackupPolicyRow {
  policyRowName : string;
  policyRowNamespace : string;
  policyRowDefault : string;
  policyRowCluster : string;
  policyRowCreateTime : Time;
  policyRowStatus : string
}.

Definition backupPolicyListHeader : list string :=
  ["NAME"; "NAMESPACE"; "DEFAULT"; "CLUSTER"; "CREATE-TIME"; "STATUS"].

(** The loop of [PrintBackupPolicyList] over [backupPolicyList.Items]; [tbl]
    is the rows added so far. *)
Fixpoint addBackupPolicyRows (env : Env) (names : list string)
    (backupPolicyNameMap : gmap string bool) (items : list Unstructured.t)
    (tbl : list BackupPolicyRow) : result (list BackupPolicyRow) :=
  match items with
  | [] => Ok tbl
  | obj :: rest =>
    let defaultPolicy :=
      index (Unstructured.GetAnnotations obj) DefaultBackupPolicyAnnotationKey in
    let ok :=
      bool_decide (is_Some (Unstructured.GetAnnotations obj
                              !! DefaultBackupPolicyAnnotationKey)) in
    match FromUnstructured_BackupPolicy env obj with
    | Err err => Err err
    | Ok backupPolicy =>
      let defaultPolicy := if ok then defaultPolicy else "false" in
      if bool_decide (0 < length names)
         && negb (cluster.inNameMap backupPolicyNameMap
                    (ObjectMeta.Name (BackupPolicy.meta backupPolicy)))
      then addBackupPolicyRows env names backupPolicyNameMap rest tbl
      else
        addBackupPolicyRows env names backupPolicyNameMap rest
          (tbl ++ [{| policyRowName := Unstructured.GetName obj;
                      policyRowNamespace := Unstructured.GetNamespace obj;
                      policyRowDefault := defaultPolicy;
                      policyRowCluster :=
                        index (Unstructured.GetLabels obj)
                          util.AppInstanceLabelKey;
                      policyRowCreateTime :=
                        Unstructured.GetCreationTimestamp obj;
                      policyRowStatus := BackupPolicy.Phase backupPolicy |}])
    end
  end.

Section PrintBackupPolicyList.

(** [action.ListOptions.Run], which is not among the sources. *)
Variable Run : Env → ListOptions.t → M (list Unstructured.t).

(** [func PrintBackupPolicyList(o action.ListOptions) error].  The value is
    the table handed to [tbl.Print()], header and rows, and [None] on the
    paths that print no table. *)
Definition PrintBackupPolicyList (env : Env) (o : ListOptions.t) :
    M (option (list string * list BackupPolicyRow)) :=
  let backupPolicyNameMap := cluster.makeNameMap (ListOptions.Names o) in
  (* if format is JSON or YAML, use default printer to output the result. *)
  if bool_decide (ListOptions.Format o = printer.JSON)
     || bool_decide (ListOptions.Format o = printer.YAML) then
    _ ← Run env o;
    mret None
  else
    _ ← lift (DynamicClient env);
    let o :=
      if ListOptions.AllNamespaces o then ListOptions.setNamespace "" o
      else o in
    backupPolicyList ← List_ env BackupPolicyGVR (ListOptions.Namespace o)
      (ListOptions.LabelSelector o) (ListOptions.FieldSelector o);
    if bool_decide (length backupPolicyList = 0) then
      _ ← emit EvPrintNotFoundResources;
      mret None
    else
      rows ← lift (addBackupPolicyRows env (ListOptions.Names o)
                     backupPolicyNameMap backupPolicyList []);
      mret (Some (backupPolicyListHeader, rows)).

End PrintBackupPolicyList.

(** The policies that the table of [list-backup-policy] shows: all of them
    when no name is given, else those whose name is one of [names]. *)
Definition shownPolicy (names : list string) (obj : Unstructured.t) : Prop :=
  names = [] ∨ Unstructured.GetName obj ∈ names.

#[global] Instance shownPolicy_dec names obj : Decision (shownPolicy names obj).
Proof. unfold shownPolicy. apply _. Defined.

(** The row of one policy: the DEFAULT cell is the annotation as it is, and
    [false] when the policy has none; the STATUS cell is the phase of the
    typed policy. *)
Definition policyRow (env : Env) (obj : Unstructured.t) :
    option BackupPolicyRow :=
  match FromUnstructured_BackupPolicy env obj with
  | Err _ => None
  | Ok backupPolicy =>
    Some {| policyRowName := Unstructured.GetName obj;
            policyRowNamespace := Unstructured.GetNamespace obj;
            policyRowDefault :=
              default "false"
                (Unstructured.GetAnnotations obj
                   !! DefaultBackupPolicyAnnotationKey);
            policyRowCluster :=
              index (Unstructured.GetLabels obj) util.AppInstanceLabelKey;
            policyRowCreateTime := Unstructured.GetCreationTimestamp obj;
            policyRowStatus := BackupPolicy.Phase backupPolicy |}
  end.

(** The example cluster seen through a converter that rejects every
    policy. *)
Definition noPolicyEnv : Env :=
  {| dynGet := dynGet example.env;
     dynList := dynList example.env;
     dynUpdate := dynUpdate example.env;
     decodeBackup := decodeBackup example.env;
     decodeBackupPolicy := λ content, Err "cannot convert";
     encodeBackupPolicy := encodeBackupPolicy example.env;
     ToDuration := ToDuration example.env;
     DynamicClient := DynamicClient example.env;
     KubeConfigNamespace := KubeConfigNamespace example.env;
     Now := Now example.env |}.

(** ** restore *)

(** [appsv1alpha1.RestoreSpec]: the flags of [kbcli cluster restore]. *)
Module RestoreSpec.
Record t : Type := mk {
  BackupName : string;
  RestoreTimeStr : string;
  VolumeRestorePolicy : string
}.
End RestoreSpec.

(** [appsv1alpha1.RestoreType] *)
Definition RestoreType : string := "Restore".

Module CreateRestoreOptions.
Record t : Type := mk {
  RestoreSpec : RestoreSpec.t;
  ClusterRef : string;
  OpsType : string;
  OpsRequestName : string;
  CreateOptions : CreateOptions.t
}.
(** Fields promoted from the embedded [action.CreateOptions]. *)
Definition Name (o : t) : string := CreateOptions.Name (CreateOptions o).
Definition Namespace (o : t) : string :=
  CreateOptions.Namespace (CreateOptions o).
Definition setName (v : string) (o : t) : t :=
  {| RestoreSpec := RestoreSpec o; ClusterRef := ClusterRef o;
     OpsType := OpsType o; OpsRequestName := OpsRequestName o;
     CreateOptions :=
       CreateOptions.mk (Namespace o) v
         (CreateOptions.Args (CreateOptions o)) |}.
Definition setOpsType (v : string) (o : t) : t :=
  {| RestoreSpec := RestoreSpec o; ClusterRef := ClusterRef o; OpsType := v;
     OpsRequestName := OpsRequestName o; CreateOptions := CreateOptions o |}.
Definition setClusterRef (v : string) (o : t) : t :=
  {| RestoreSpec := RestoreSpec o; ClusterRef := v; OpsType := OpsType o;
     OpsRequestName := OpsRequestName o; CreateOptions := CreateOptions o |}.
Definition setOpsRequestName (v : string) (o : t) : t :=
  {| RestoreSpec := RestoreSpec o; ClusterRef := ClusterRef o;
     OpsType := OpsType o; OpsRequestName := v;
     CreateOptions := CreateOptions o |}.

Section Validate.

(** [generateClusterName(o.Dynamic, o.Namespace)], which is not among the
    sources: it may send requests and yields a name. *)
Variable generateClusterName : Env → string → M string.

(** [func (o *CreateRestoreOptions) Validate() error] *)
Definition Validate (env : Env) (o : t) : M t :=
  if bool_decide (RestoreSpec.BackupName (RestoreSpec o) = "") then
    fail "must be specified one of the --backup "
  else
    o ← (if bool_decide (Name o = "") then
           name ← generateClusterName env (Namespace o);
           if bool_decide (name = "") then
             fail "failed to generate a random cluster name"
           else mret (setName name o)
         else mret o);
    (* set ops type, ops request name and clusterRef *)
    let o := setOpsType RestoreType o in
    let o := setClusterRef (Name o) o in
    let o := setOpsRequestName (Name o) o in
    mret o.

End Validate.
End CreateRestoreOptions.

(** A name generator that lists the clusters and proposes [restored]. *)
Definition proposeRestored (env : Env) (ns : string) : M string :=
  _ ← List_ env ClusterGVR ns "" "";
  mret "restored".

(** ** Package [util], version.go *)

Module version.

(** [kubeblocksAppComponent] and [dataprotectionAppComponent] *)
Definition kubeblocksAppComponent : string := "apps".
Definition dataprotectionAppComponent : string := "dataprotection".

(** [metav1.NamespaceAll] *)
Definition NamespaceAll : string := "".

(** [appsv1.Deployment]: [GetLabels()] is nil or a map. *)
Record Deployment : Type := mkDeployment {
  GetLabels : option (gmap string string)
}.

(** [kubernetes.Interface] as the functions of version.go use it:
    [Discovery()] is nil or a client whose [ServerVersion()] fails or yields
    nil or a version with its [GitVersion]; [AppsV1().Deployments(ns).List]
    with a label selector fails or yields nil or a list. *)
Record Interface : Type := mkInterface {
  Discovery : option (result (option string));
  DeploymentsList : string → string → result (option (list Deployment))
}.

Record Version : Type := mkVersion {
  KubeBlocks : string;
  Kubernetes : string;
  Cli : string
}.

Section version.

(** [types.KubeBlocksChartName] and [version.GetVersion()], which are not
    among the sources. *)
Variable KubeBlocksChartName : string.
Variable GetVersion : string.

(** [func GetK8sVersion(discoveryClient discovery.DiscoveryInterface)
    (string, error)] *)
Definition GetK8sVersion (discoveryClient : option (result (option string))) :
    result string :=
  match discoveryClient with
  | None => Ok ""
  | Some ServerVersion =>
    match ServerVersion with
    | Err err => Err err
    | Ok (Some GitVersion) => Ok GitVersion
    | Ok None => Ok ""
    end
  end.

(** [func GetKubeBlocksDeploy(client kubernetes.Interface)]: the deployment
    or nil, or an error. *)
Definition GetKubeBlocksDeploy (client : Interface) :
    result (option Deployment) :=
  match DeploymentsList client NamespaceAll
          ("app.kubernetes.io/name=" +:+ KubeBlocksChartName +:+
           ",app.kubernetes.io/component=" +:+ kubeblocksAppComponent) with
  | Err err => Err err
  | Ok None => Ok None
  | Ok (Some Items) =>
    if bool_decide (length Items = 0) then Ok None
    else if bool_decide (1 < length Items) then
      Err "found multiple KubeBlocks deployments, please check your cluster"
    else Ok (Items !! 0)
  end.

(** [func GetDataProtectionDeploy(client kubernetes.Interface)]: the
    deployment or nil, or an error. *)
Definition GetDataProtectionDeploy (client : Interface) :
    result (option Deployment) :=
  match DeploymentsList client NamespaceAll
          ("app.kubernetes.io/name=" +:+ KubeBlocksChartName +:+
           ",app.kubernetes.io/component=" +:+ dataprotectionAppComponent) with
  | Err err => Err err
  | Ok None => Ok None
  | Ok (Some Items) =>
    if bool_decide (length Items = 0) then Ok None
    else if bool_decide (1 < length Items) then
      Err "found multiple DataProtection deployments, please check your cluster"
    else Ok (Items !! 0)
  end.

(** [func getKubeBlocksVersion(client kubernetes.Interface) (string, error)] *)
Definition getKubeBlocksVersion (client : Interface) : result string :=
  match GetKubeBlocksDeploy client with
  | Err err => Err err
  | Ok None => Ok ""
  | Ok (Some deploy) =>
    match GetLabels deploy with
    | None => Err "KubeBlocks deployment has no labels"
    | Some labels =>
      match labels !! "app.kubernetes.io/version" with
      | None => Err "KubeBlocks deployment has no version label"
      | Some v => Ok v
      end
    end
  end.

(** [func GetVersionInfo(client kubernetes.Interface) (Version, error)]: the
    version is returned as far as it was filled in, beside the error. *)
Definition GetVersionInfo (client : option Interface) :
    Version * option string :=
  let v := {| KubeBlocks := ""; Kubernetes := ""; Cli := GetVersion |} in
  match client with
  | None => (v, None)
  | Some client =>
    match GetK8sVersion (Discovery client) with
    | Err err =>
      ({| KubeBlocks := KubeBlocks v; Kubernetes := ""; Cli := Cli v |},
       Some err)
    | Ok k8s =>
      let v := {| KubeBlocks := KubeBlocks v; Kubernetes := k8s;
                  Cli := Cli v |} in
      match getKubeBlocksVersion client with
      | Err err =>
        ({| KubeBlocks := ""; Kubernetes := Kubernetes v; Cli := Cli v |},
         Some err)
      | Ok kb =>
        ({| KubeBlocks := kb; Kubernetes := Kubernetes v; Cli := Cli v |},
         None)
      end
    end
  end.

End version.

(** A cluster of Kubernetes v1.26.1 with KubeBlocks 0.7.0 installed once. *)
Definition exampleClient : Interface :=
  {| Discovery := Some (Ok (Some "v1.26.1"));
     DeploymentsList := λ ns selector,
       if bool_decide
            (selector
             = "app.kubernetes.io/name=kubeblocks,app.kubernetes.io/component=apps")
       then Ok (Some [mkDeployment
                        (Some {[ "app.kubernetes.io/version" := "0.7.0" ]})])
       else Ok (Some []) |}.

End version.

(** ** Package [template]: the mock client *)

Module template.

(** [client.Object] as the mock client looks at it: namespace and name, the
    kind of its type meta, its Go type, and the rest of it.  An object is a
    pointer to such a value; where the source tests an object for nil it is
    an [option]. *)
Record Object : Type := mkObject {
  GetNamespace : string;
  GetName : string;
  Kind : string;
  GoType : string;
  content : string
}.

(** [client.ObjectKey]: namespace and name. *)
Definition ObjectKey : Type := (string * string)%type.

Definition ObjectKeyFromObject (obj : Object) : ObjectKey :=
  (GetNamespace obj, GetName obj).

(** [client.ObjectList]: the kind of its type meta, the Go type of its
    items, and the items. *)
Record ObjectList : Type := mkObjectList {
  ListKind : string;
  ItemType : string;
  Items : list Object
}.

Definition ResourceMatcher : Type := Object → bool.
Definition Handler : Type := Object → result unit.

Module ResourceHandler.
Record t : Type := mk {
  Matcher : list ResourceMatcher;
  Handler : Handler
}.
End ResourceHandler.

Record mockClient : Type := mkMockClient {
  objects : gmap ObjectKey Object;
  kindObjectList : gmap string (list Object);
  hander : option ResourceHandler.t
}.

(** [func fromObjects(objs []client.Object) map[client.ObjectKey]client.Object] *)
Definition fromObjects (objs : list (option Object)) :
    gmap ObjectKey Object :=
  foldl (λ r obj,
           match obj with
           | Some obj => <[ObjectKeyFromObject obj := obj]> r
           | None => r
           end) ∅ objs.

(** [func splitRuntimeObject(objects []client.Object)
    map[string][]runtime.Object]; the value is [None] when the function
    panics, which it does at a nil object ([object.GetObjectKind()]). *)
Definition splitRuntimeObject (objects : list (option Object)) :
    option (gmap string (list Object)) :=
  foldl (λ r object,
           match r, object with
           | Some r, Some object =>
             let kind := Kind object in
             let r := if bool_decide (is_Some (r !! kind)) then r
                      else <[kind := []]> r in
             Some (<[kind := default [] (r !! kind) ++ [object]]> r)
           | _, _ => None
           end) (Some ∅) objects.

(** [func newMockClient(objs []client.Object) *mockClient]; [None] when it
    panics. *)
Definition newMockClient (objs : list (option Object)) : option mockClient :=
  let objects := fromObjects objs in
  match splitRuntimeObject objs with
  | Some kindObjectList =>
    Some {| objects := objects; kindObjectList := kindObjectList;
            hander := None |}
  | None => None
  end.

(** [func (m *mockClient) SetResourceHandler(resourceHandler
    *ResourceHandler)] *)
Definition SetResourceHandler (resourceHandler : option ResourceHandler.t)
    (m : mockClient) : mockClient :=
  {| objects := objects m; kindObjectList := kindObjectList m;
     hander := resourceHandler |}.

(** [func (m *mockClient) AppendMockObjects(obj client.Object)] *)
Definition AppendMockObjects (obj : Object) (m : mockClient) : mockClient :=
  let objKey := ObjectKeyFromObject obj in
  if bool_decide (is_Some (objects m !! objKey)) then m
  else {| objects := <[objKey := obj]> (objects m);
          kindObjectList := kindObjectList m; hander := hander m |}.

(** [func SetGetReturnedObject(out client.Object, expectedObj
    client.Object)]: the value that [out] points to afterwards; [None] when
    [reflect.Value.Set] panics, the types being different. *)
Definition SetGetReturnedObject (out expectedObj : Object) : option Object :=
  if bool_decide (GoType out = GoType expectedObj) then Some expectedObj
  else None.

(** [apierrors.NewNotFound(corev1.SchemeGroupVersion.WithResource(
    "mock_resource").GroupResource(), key.String())], as a message. *)
Definition NewNotFound (key : ObjectKey) : string :=
  "mock_resource " +:+ quoted (key.1 +:+ "/" +:+ key.2) +:+ " not found".

(** [func (m *mockClient) Get(ctx, key, obj, opts...) error]: [None] when
    the call panics, else the error or the value that [obj] points to
    afterwards. *)
Definition Get (m : mockClient) (key : ObjectKey) (obj : Object) :
    option (result Object) :=
  let objKey := key in
  match objects m !! objKey with
  | Some object => Ok <$> SetGetReturnedObject obj object
  | None =>
    let objKey := ("", objKey.2) in
    match objects m !! objKey with
    | Some object => Ok <$> SetGetReturnedObject obj object
    | None => Some (Err (NewNotFound key))
    end
  end.

Section List.

(** [meta.SetList(list, objects)] of apimachinery: the list with the objects
    as its items, or an error. *)
Variable SetList : ObjectList → list Object → result ObjectList.

(** [func SetListReturnedObjects(list client.ObjectList, objects
    []runtime.Object) error] *)
Definition SetListReturnedObjects (list : ObjectList)
    (objects : Datatypes.list Object) : result ObjectList :=
  SetList list objects.

(** [func (m *mockClient) List(ctx, list, opts...) error]: the error, or the
    list afterwards. *)
Definition List (m : mockClient) (list : ObjectList) : result ObjectList :=
  match kindObjectList m !! ListKind list with
  | Some r => SetListReturnedObjects list r
  | None => Ok list
  end.

End List.

(** The loop of [Create] over the matchers: [false] when one of them turns
    the object down. *)
Fixpoint matchAll (matchers : list ResourceMatcher) (obj : Object) : bool :=
  match matchers with
  | [] => true
  | matcher :: rest => if negb (matcher obj) then false else matchAll rest obj
  end.

(** [func (m *mockClient) Create(ctx, obj, opts...) error] *)
Definition Create (m : mockClient) (obj : Object) : result unit :=
  match hander m with
  | None => Ok tt
  | Some hander =>
    if bool_decide (length (ResourceHandler.Matcher hander) = 0) then Ok tt
    else if matchAll (ResourceHandler.Matcher hander) obj
    then ResourceHandler.Handler hander obj
    else Ok tt
  end.

(** [Delete], [Update] and [Patch] do nothing. *)
Definition Delete (m : mockClient) (obj : Object) : result unit := Ok tt.
Definition Update (m : mockClient) (obj : Object) : result unit := Ok tt.
Definition Patch (m : mockClient) (obj : Object) (patch : string) :
    result unit := Ok tt.

(** [func (m *mockClient) DeleteAllOf(ctx, obj, opts...) error] *)
Definition DeleteAllOf (m : mockClient) (obj : Object) : result unit :=
  Err "not support".

(** The objects of a list that are not nil. *)
Definition present (objs : list (option Object)) : list Object :=
  omap id objs.

(** [meta.SetList] on lists whose items may be of any type. *)
Definition setItems (list : ObjectList) (objects : Datatypes.list Object) :
    result ObjectList :=
  Ok {| ListKind := ListKind list; ItemType := ItemType list;
        Items := objects |}.

(** Two config maps of the same name, a cluster-scoped node and a pod. *)
Definition cm1 : Object := mkObject "default" "cm" "ConfigMap" "ConfigMap" "a".
Definition cm2 : Object := mkObject "default" "cm" "ConfigMap" "ConfigMap" "b".
Definition node : Object := mkObject "" "n1" "Node" "Node" "".
Definition pod : Object := mkObject "default" "p1" "Pod" "Pod" "".

(** The client made from them. *)
Definition exampleMock : mockClient :=
  match newMockClient (Some <$> [cm1; cm2; node; pod]) with
  | Some m => m
  | None => mkMockClient ∅ ∅ None
  end.

(** A handler that refuses what it is given, for config maps in the
    namespace [default]. *)
Definition refuseConfigMaps : ResourceHandler.t :=
  ResourceHandler.mk
    [λ obj, bool_decide (Kind obj = "ConfigMap");
     λ obj, bool_decide (GetNamespace obj = "default")]
    (λ obj, Err "refused").

End template.

(** ** describe-backup: the failure reason *)

Module describe.

(** [batchv1.Job] and [corev1.Pod], the fields read. *)
Record Job : Type := mkJob {
  JobUID : string;
  JobNamespace : string;
  Failed : Z
}.
Record Pod : Type := mkPod {
  PodNamespace : string;
  PodName : string
}.

(** The typed client [o.client] as [enhancePrintFailureReason] uses it:
    [BatchV1().Jobs(ns).List] and [CoreV1().Pods(ns).List] with a label
    selector, and [CoreV1().Pods(ns).GetLogs(name, TailLines).DoRaw]. *)
Record Clientset : Type := mkClientset {
  JobsList : string → string → result (list Job);
  PodsList : string → string → result (list Pod);
  GetLogs : string → string → Z → result string
}.


Section enhancePrintFailureReason.

(** [dptypes.BackupNameLabelKey], which is not among the sources. *)
Variable BackupNameLabelKey : string.


End enhancePrintFailureReason.

(** A backup whose second job failed; its pod logged [disk full]. *)
Definition exampleClient : Clientset :=
  {| JobsList := λ ns selector,
       Ok [mkJob "u1" "default" 0; mkJob "u2" "default" 1];
     PodsList := λ ns selector,
       if bool_decide (selector = "controller-uid=u2")
       then Ok [mkPod "default" "backup-pod"] else Ok [];
     GetLogs := λ ns name tailLines, Ok "disk full" |}.

End describe.

(** * Properties *)

(** ** Auxiliary facts *)

Lemma length_pos_nonempty (s : string) : 0 < String.length s ↔ s ≠ "".
Proof. destruct s; simpl; split; intros; (lia || congruence). Qed.

Lemma length_zero_empty (s : string) : String.length s = 0 ↔ s = "".
Proof. destruct s; simpl; split; intros; (lia || congruence). Qed.

Lemma Contains_middle (pre s post : string) : Contains s (pre +:+ s +:+ post).
Proof. by exists pre, post. Qed.

Lemma bind_Ok {A B} (l : list Event) (a : A) (f : A → M B) :
  (mbind f ((l, Ok a) : M A)) = (l ++ log (f a), outcome (f a)).
Proof. unfold mbind, M_bind, log, outcome. by destruct (f a). Qed.

Lemma bind_Err {A B} (l : list Event) (e : string) (f : A → M B) :
  (mbind f ((l, Err e) : M A)) = (l, Err e).
Proof. reflexivity. Qed.

Lemma log_bind {A B} (m : M A) (f : A → M B) :
  log (m ≫= f) =
    log m ++ match outcome m with Ok a => log (f a) | Err _ => [] end.
Proof.
  destruct m as [l [a|e]]; unfold log; simpl.
  - by destruct (f a).
  - by rewrite app_nil_r.
Qed.

Lemma outcome_bind {A B} (m : M A) (f : A → M B) :
  outcome (m ≫= f) =
    match outcome m with Ok a => outcome (f a) | Err e => Err e end.
Proof.
  destruct m as [l [a|e]]; unfold outcome; simpl; [|done].
  by destruct (f a).
Qed.

(** ** Account commands *)



(** ** delete-backup *)

(** C1. With no [--name] and without [--force], [completeForDeleteBackup]
    returns an error whatever the arguments are, and the command ends there:
    [Run] is not reached, so the outcome is the same for every [Run] and no
    request is sent. *)
Theorem completeForDeleteBackup_requires_name (o : DeleteOptions.t)
    (args : list string) :
  DeleteOptions.Names o = [] →
  DeleteOptions.Force o = false →
  is_Err (cluster.completeForDeleteBackup o args) ∧
  (∀ a, args = [a] →
     cluster.completeForDeleteBackup o args
     = Err "Missing --name as backup name.") ∧
  (∀ Run, ∃ e, cluster.NewDeleteBackupCmd_Run Run o args = ([], Err e)).
Proof.
  intros HN HF.
  assert (Herr : ∃ e, cluster.completeForDeleteBackup o args = Err e).
  { unfold cluster.completeForDeleteBackup. rewrite HN, HF. simpl.
    repeat case_bool_decide; eauto. }
  destruct Herr as [e He].
  split; [by rewrite He|]. split.
  - intros a ->. unfold cluster.completeForDeleteBackup.
    by rewrite HN, HF.
  - intros Run. exists e. unfold cluster.NewDeleteBackupCmd_Run.
    by rewrite He.
Qed.

(** [kbcli cluster delete-backup mycluster] is refused. *)
Lemma completeForDeleteBackup_requires_name_witness :
  is_Err (cluster.completeForDeleteBackup
            (DeleteOptions.mk [] [] "" false) ["mycluster"]).
Proof.
  exact (proj1 (completeForDeleteBackup_requires_name
                  (DeleteOptions.mk [] [] "" false) ["mycluster"]
                  eq_refl eq_refl)).
Defined.

(** C9. When [completeForDeleteBackup] succeeds, [ConfirmedNames] is
    [Names].  With [--force] and no [--name], the assignment of the cluster
    names to [ConfirmedNames] is overwritten by the empty [Names], and the
    label selector computed on the force path stays. *)
Theorem completeForDeleteBackup_ConfirmedNames (o o' : DeleteOptions.t)
    (args : list string) :
  cluster.completeForDeleteBackup o args = Ok o' →
  DeleteOptions.ConfirmedNames o' = DeleteOptions.Names o' ∧
  DeleteOptions.Names o' = DeleteOptions.Names o ∧
  (DeleteOptions.Force o = true → DeleteOptions.Names o = [] →
     DeleteOptions.ConfirmedNames o' = [] ∧
     DeleteOptions.ConfirmedNames o' ≠ args ∧
     DeleteOptions.LabelSelector o'
     = util.BuildLabelSelectorByNames (DeleteOptions.LabelSelector o) args) ∧
  (DeleteOptions.Names o ≠ [] →
     DeleteOptions.LabelSelector o' = DeleteOptions.LabelSelector o).
Proof.
  unfold cluster.completeForDeleteBackup.
  destruct o as [names confirmed sel force]; simpl.
  destruct args as [|a [|b rest]]; simpl; try done.
  destruct force, names as [|n names]; simpl; intros H; simplify_eq; simpl;
    repeat split; try done.
Qed.

(** [kbcli cluster delete-backup mycluster --force]: the selector is set and
    [ConfirmedNames] is empty. *)
Lemma completeForDeleteBackup_ConfirmedNames_witness :
  let o := DeleteOptions.mk [] [] "" true in
  let o' := DeleteOptions.mk [] [] "app.kubernetes.io/instance in (mycluster)"
              true in
  cluster.completeForDeleteBackup o ["mycluster"] = Ok o' ∧
  DeleteOptions.ConfirmedNames o' = DeleteOptions.Names o'.
Proof.
  split; [reflexivity|].
  exact (proj1 (completeForDeleteBackup_ConfirmedNames
                  (DeleteOptions.mk [] [] "" true)
                  (DeleteOptions.mk [] []
                     "app.kubernetes.io/instance in (mycluster)" true)
                  ["mycluster"] eq_refl)).
Defined.

(** ** backup: completion *)










(** ** backup: validation *)


Lemma log_Get env gvr ns name :
  log (Get env gvr ns name) = [EvGet gvr ns name].
Proof. done. Qed.

Lemma outcome_Get env gvr ns name :
  outcome (Get env gvr ns name) = dynGet env gvr ns name.
Proof. done. Qed.

Lemma log_List env gvr ns sel fsel :
  log (List_ env gvr ns sel fsel) = [EvList gvr ns sel fsel].
Proof. done. Qed.

Lemma outcome_List env gvr ns sel fsel :
  outcome (List_ env gvr ns sel fsel) = dynList env gvr ns sel fsel.
Proof. done. Qed.

Lemma log_lift {A} (r : result A) : log (lift r) = [].
Proof. done. Qed.

Lemma outcome_lift {A} (r : result A) : outcome (lift r) = r.
Proof. done. Qed.

Lemma M_eta {A} (m : M A) : m = (log m, outcome m).
Proof. by destruct m. Qed.

Lemma bind_assoc {A B C} (m : M A) (f : A → M B) (g : B → M C) :
  (m ≫= f) ≫= g = m ≫= (λ a, f a ≫= g).
Proof.
  destruct m as [l [a|e]]; [|done].
  unfold mbind, M_bind.
  destruct (f a) as [l1 [b|e1]]; [|done].
  destruct (g b) as [l2 r]. by rewrite app_assoc.
Qed.

Lemma bind_fail {A B} (e : string) (f : A → M B) : fail e ≫= f = fail e.
Proof. done. Qed.

Lemma bind_ret {A B} (a : A) (f : A → M B) : mret a ≫= f = f a.
Proof. unfold mbind, M_bind, mret, M_ret. by destruct (f a). Qed.

Lemma bind_ext {A B} (m : M A) (f g : A → M B) :
  (∀ a, f a = g a) → m ≫= f = m ≫= g.
Proof.
  intros H. destruct m as [l [a|e]]; [|done].
  unfold mbind, M_bind. by rewrite H.
Qed.

(** [Validate] is its stages in sequence. *)
Lemma Validate_stages (env : Env) (o : cluster.CreateBackupOptions.t) :
  cluster.Validate env o =
    if bool_decide (cluster.CreateBackupOptions.Name o = "")
    then fail "missing cluster name"
    else
      o ← resolvePolicy env o;
      _ ← checkPolicyAndMethod env o;
      _ ← checkParentBackup env o;
      mret o.
Proof.
  unfold cluster.Validate. case_bool_decide; [done|].
  fold (resolvePolicy env o). apply bind_ext. intros o1.
  unfold checkPolicyAndMethod. rewrite !bind_assoc.
  apply bind_ext. intros obj. rewrite bind_assoc.
  apply bind_ext. intros _.
  fold (checkParentBackup env o1).
  case_bool_decide; [done|].
  case_bool_decide; [|by rewrite bind_ret].
  by destruct (ToDuration env _).
Qed.

Section logAll.

Context (P : Event → Prop).

Lemma logAll_ret {A} (a : A) : logAll P (mret a : M A).
Proof. constructor. Qed.

Lemma logAll_fail {A} (e : string) : logAll P (fail e : M A).
Proof. constructor. Qed.

Lemma logAll_lift {A} (r : result A) : logAll P (lift r).
Proof. constructor. Qed.

Lemma logAll_emit ev : P ev → logAll P (emit ev).
Proof. by repeat constructor. Qed.

Lemma logAll_Get env gvr ns name :
  P (EvGet gvr ns name) → logAll P (Get env gvr ns name).
Proof. by repeat constructor. Qed.

Lemma logAll_List env gvr ns sel fsel :
  P (EvList gvr ns sel fsel) → logAll P (List_ env gvr ns sel fsel).
Proof. by repeat constructor. Qed.

Lemma logAll_bind {A B} (m : M A) (f : A → M B) :
  logAll P m → (∀ a, logAll P (f a)) → logAll P (m ≫= f).
Proof.
  unfold logAll. intros Hm Hf. rewrite log_bind.
  apply Forall_app. split; [done|].
  destruct (outcome m); [apply Hf|constructor].
Qed.

End logAll.

(** One step of a proof that the effects of a command all satisfy a
    predicate: by the structure of the command. *)
Ltac logAll_step :=
  match goal with
  | |- logAll _ (_ ≫= _) => apply logAll_bind; [|intros ?]
  | |- logAll _ (if ?b then _ else _) => destruct b
  | |- logAll _ (match ?x with _ => _ end) => destruct x
  | |- logAll _ (mret _) => apply logAll_ret
  | |- logAll _ (fail _) => apply logAll_fail
  | |- logAll _ (lift _) => apply logAll_lift
  | |- logAll _ (Get _ _ _ _) => by apply logAll_Get
  | |- logAll _ (List_ _ _ _ _ _) => by apply logAll_List
  | |- logAll _ (emit _) => by apply logAll_emit
  end.

Lemma getDefaultBackupPolicy_logAll P env o :
  (∀ ns n, P (EvGet ClusterGVR ns n)) →
  (∀ ns sel fsel, P (EvList BackupPolicyGVR ns sel fsel)) →
  logAll P (cluster.getDefaultBackupPolicy env o).
Proof.
  intros HG HL. unfold cluster.getDefaultBackupPolicy.
  repeat logAll_step.
Qed.

Lemma resolvePolicy_logAll P env o :
  (∀ ns n, P (EvGet ClusterGVR ns n)) →
  (∀ ns sel fsel, P (EvList BackupPolicyGVR ns sel fsel)) →
  logAll P (resolvePolicy env o).
Proof.
  intros HG HL.
  unfold resolvePolicy, cluster.completeDefaultBackupPolicy.
  repeat (logAll_step || by apply getDefaultBackupPolicy_logAll).
Qed.

Lemma checkPolicyAndMethod_log env o :
  log (checkPolicyAndMethod env o)
  = [EvGet BackupPolicyGVR (cluster.CreateBackupOptions.Namespace o)
       (cluster.CreateBackupOptions.BackupPolicyName o)].
Proof.
  unfold checkPolicyAndMethod.
  rewrite log_bind, log_Get, outcome_Get.
  destruct (dynGet env _ _ _) as [u|e]; [|done].
  rewrite log_bind, log_lift, outcome_lift.
  destruct (FromUnstructured_BackupPolicy env u); [|done].
  repeat case_bool_decide; try done.
  by destruct (ToDuration env _).
Qed.

Lemma checkParentBackup_readOnly env o : readOnly (checkParentBackup env o).
Proof. unfold readOnly, checkParentBackup. repeat logAll_step. Qed.

Lemma Validate_readOnly env o : readOnly (cluster.Validate env o).
Proof.
  rewrite Validate_stages. unfold readOnly.
  case_bool_decide; [apply logAll_fail|].
  apply logAll_bind; [by apply resolvePolicy_logAll|]. intros o1.
  apply logAll_bind.
  { unfold logAll. rewrite checkPolicyAndMethod_log. by repeat constructor. }
  intros _. apply logAll_bind; [apply checkParentBackup_readOnly|].
  intros _. apply logAll_ret.
Qed.

Lemma resolvePolicy_outcome env o o1 :
  outcome (resolvePolicy env o) = Ok o1 →
  (cluster.CreateBackupOptions.BackupPolicyName o ≠ "" ∧ o1 = o) ∨
  (cluster.CreateBackupOptions.BackupPolicyName o = "" ∧
   ∃ p, outcome (cluster.getDefaultBackupPolicy env o) = Ok p ∧
        o1 = cluster.CreateBackupOptions.setBackupSpec
               (cluster.BackupSpec.setBackupPolicyName p
                  (cluster.CreateBackupOptions.BackupSpec o)) o).
Proof.
  unfold resolvePolicy. case_bool_decide as Hp.
  - unfold cluster.completeDefaultBackupPolicy. rewrite outcome_bind.
    destruct (outcome (cluster.getDefaultBackupPolicy env o)) as [p|e];
      [|done].
    intros [= <-]. right. eauto.
  - intros [= <-]. by left.
Qed.

(** Resolving the policy changes no other field. *)
Lemma resolvePolicy_frame env o o1 :
  outcome (resolvePolicy env o) = Ok o1 →
  cluster.CreateBackupOptions.Name o1 = cluster.CreateBackupOptions.Name o ∧
  cluster.CreateBackupOptions.Namespace o1
  = cluster.CreateBackupOptions.Namespace o ∧
  cluster.CreateBackupOptions.ParentBackupName o1
  = cluster.CreateBackupOptions.ParentBackupName o.
Proof.
  intros [[_ ->]|[_ (p & _ & ->)]]%resolvePolicy_outcome; done.
Qed.

Lemma Validate_outcome env o o' :
  outcome (cluster.Validate env o) = Ok o' →
  outcome (resolvePolicy env o) = Ok o'.
Proof.
  rewrite Validate_stages. case_bool_decide; [done|].
  rewrite outcome_bind.
  destruct (outcome (resolvePolicy env o)) as [o1|e]; [|done].
  rewrite outcome_bind.
  destruct (outcome (checkPolicyAndMethod env o1)); [|done].
  rewrite outcome_bind.
  destruct (outcome (checkParentBackup env o1)); [|done].
  done.
Qed.

(** C8. With [--policy] empty, [Validate] first resolves the default backup
    policy.  Among the backup policies listed with the selector
    [app.kubernetes.io/instance=<cluster>], [getDefaultBackupPolicy] fails
    when there is none, when none carries the default annotation with value
    ["true"], and when more than one does; otherwise it returns the name of
    the only one, which [Validate] then looks up and keeps as the policy
    name.  A failure of the resolution is the outcome of [Validate], after
    the two read requests only; and no run of [Validate] sends a mutating
    request. *)
Theorem Validate_default_backup_policy (env : Env)
    (o : cluster.CreateBackupOptions.t)
    (clusterObj : Unstructured.t) (objs : list Unstructured.t) :
  let ns := cluster.CreateBackupOptions.Namespace o in
  let name := cluster.CreateBackupOptions.Name o in
  let sel := util.AppInstanceLabelKey +:+ "=" +:+
             Unstructured.GetName clusterObj in
  let reads := [EvGet ClusterGVR ns name; EvList BackupPolicyGVR ns sel ""] in
  dynGet env ClusterGVR ns name = Ok clusterObj →
  dynList env BackupPolicyGVR ns sel "" = Ok objs →
  (objs = [] →
     cluster.getDefaultBackupPolicy env o
     = (reads, Err ("not found any backup policy for cluster " +:+
                    quoted name))) ∧
  (objs ≠ [] → defaultPolicies objs = [] →
     cluster.getDefaultBackupPolicy env o
     = (reads, Err ("not found any default backup policy for cluster " +:+
                    quoted name))) ∧
  (1 < length (defaultPolicies objs) →
     cluster.getDefaultBackupPolicy env o
     = (reads, Err ("cluster " +:+ String strings.dquote name +:+
                    String strings.dquote
                      " has multiple default backup policies"))) ∧
  (∀ p, defaultPolicies objs = [p] →
     cluster.getDefaultBackupPolicy env o
     = (reads, Ok (Unstructured.GetName p))) ∧
  (name ≠ "" → cluster.CreateBackupOptions.BackupPolicyName o = "" →
     (∀ e, outcome (cluster.getDefaultBackupPolicy env o) = Err e →
        cluster.Validate env o = (reads, Err e)) ∧
     (∀ p, outcome (cluster.getDefaultBackupPolicy env o) = Ok p →
        ∃ l, log (cluster.Validate env o)
             = reads ++ EvGet BackupPolicyGVR ns p :: l) ∧
     (∀ o', outcome (cluster.Validate env o) = Ok o' →
        outcome (cluster.getDefaultBackupPolicy env o)
        = Ok (cluster.CreateBackupOptions.BackupPolicyName o'))) ∧
  readOnly (cluster.Validate env o).
Proof.
  intros ns name sel reads Hget Hlist.
  assert (Hshape : ∃ r, cluster.getDefaultBackupPolicy env o = (reads, r) ∧
    r = if bool_decide (length objs = 0) then
         Err ("not found any backup policy for cluster " +:+ quoted name)
       else if bool_decide (length (defaultPolicies objs) = 0) then
         Err ("not found any default backup policy for cluster " +:+
              quoted name)
       else if bool_decide (1 < length (defaultPolicies objs)) then
         Err ("cluster " +:+ String strings.dquote name +:+
              String strings.dquote " has multiple default backup policies")
       else match defaultPolicies objs with
            | p :: _ => Ok (Unstructured.GetName p)
            | [] => Err "index out of range"
            end).
  { eexists. split; [|reflexivity].
    unfold cluster.getDefaultBackupPolicy, Get, List_.
    fold ns name. rewrite Hget, bind_Ok. fold sel. rewrite Hlist.
    rewrite bind_Ok. fold (defaultPolicies objs).
    repeat case_bool_decide; try done.
    by destruct (defaultPolicies objs). }
  destruct Hshape as (r & Hshape & Hr).
  split; [|split; [|split; [|split; [|split]]]].
  - intros ->. by rewrite Hshape, Hr.
  - intros Hne Hd. rewrite Hshape, Hr, Hd.
    destruct objs; [done|]. by repeat case_bool_decide.
  - intros Hlen. rewrite Hshape, Hr.
    destruct objs as [|x objs]; [simpl in Hlen; lia|].
    repeat case_bool_decide; simpl in *; try done; lia.
  - intros p Hp. rewrite Hshape, Hr, Hp.
    destruct objs as [|x objs]; [done|].
    repeat case_bool_decide; simpl in *; try done; lia.
  - intros Hname Hpol. clear Hr.
    assert (Hres : resolvePolicy env o
      = (reads,
         match r with
         | Ok p => Ok (cluster.CreateBackupOptions.setBackupSpec
                         (cluster.BackupSpec.setBackupPolicyName p
                            (cluster.CreateBackupOptions.BackupSpec o)) o)
         | Err e => Err e
         end)).
    { unfold resolvePolicy. rewrite bool_decide_eq_true_2 by done.
      unfold cluster.completeDefaultBackupPolicy. rewrite Hshape.
      destruct r; [|done]. rewrite bind_Ok. by rewrite app_nil_r. }
    split; [|split].
    + intros e. rewrite Hshape. intros [= ->].
      rewrite Validate_stages. fold name.
      rewrite bool_decide_eq_false_2 by done. by rewrite Hres.
    + intros p. rewrite Hshape. intros [= ->].
      rewrite Validate_stages. fold name.
      rewrite bool_decide_eq_false_2 by done.
      rewrite Hres, bind_Ok, log_bind, checkPolicyAndMethod_log.
      eexists. unfold log at 1. simpl. reflexivity.
    + intros o' Ho'%Validate_outcome.
      apply resolvePolicy_outcome in Ho' as [[? _]|[_ (p & Hp & ->)]]; done.
  - apply Validate_readOnly.
Qed.

(** In the example cluster the default policy is found, and [Validate]
    accepts [kbcli cluster backup mycluster --method xtrabackup]. *)
Lemma Validate_default_backup_policy_witness :
  cluster.getDefaultBackupPolicy example.env (example.backupOptions "" "")
  = ([EvGet ClusterGVR "default" "mycluster";
      EvList BackupPolicyGVR "default"
        "app.kubernetes.io/instance=mycluster" ""],
     Ok "mycluster-backup-policy") ∧
  outcome (cluster.Validate example.env (example.backupOptions "" ""))
  = Ok (example.backupOptions "mycluster-backup-policy" "").
Proof.
  split; [|by vm_compute].
  pose proof (Validate_default_backup_policy example.env
    (example.backupOptions "" "") example.mycluster
    [example.policy1; example.policy2] eq_refl eq_refl)
    as (_ & _ & _ & H & _).
  exact (H example.policy1 eq_refl).
Defined.

Lemma Forall_not_Exists {A} (P : A → Prop) (l : list A) :
  Forall (λ x, ¬ P x) l → ¬ Exists P l.
Proof. induction 1; inversion 1; auto. Qed.

Lemma resolvePolicy_no_backup_get env o :
  ¬ Exists isBackupGet (log (resolvePolicy env o)).
Proof.
  apply Forall_not_Exists.
  apply (resolvePolicy_logAll (λ ev, ¬ isBackupGet ev)); intros; simpl; tauto.
Qed.

(** The parent check, when the parent backup exists but is not completed or
    belongs to another cluster. *)
Lemma checkParentBackup_rejects env o parentObj parent :
  cluster.CreateBackupOptions.ParentBackupName o ≠ "" →
  dynGet env BackupGVR (cluster.CreateBackupOptions.Namespace o)
    (cluster.CreateBackupOptions.ParentBackupName o) = Ok parentObj →
  FromUnstructured_Backup env parentObj = Ok parent →
  Backup.Phase (Backup.status parent) ≠ BackupPhaseCompleted ∨
  index (ObjectMeta.Labels (Backup.meta parent)) util.AppInstanceLabelKey
  ≠ cluster.CreateBackupOptions.Name o →
  checkParentBackup env o
  = ([EvGet BackupGVR (cluster.CreateBackupOptions.Namespace o)
        (cluster.CreateBackupOptions.ParentBackupName o)],
     Err (if bool_decide
               (Backup.Phase (Backup.status parent) ≠ BackupPhaseCompleted)
          then "parent backup " +:+
               cluster.CreateBackupOptions.ParentBackupName o +:+
               " is not completed"
          else "parent backup " +:+
               cluster.CreateBackupOptions.ParentBackupName o +:+
               " is not belong to cluster " +:+
               cluster.CreateBackupOptions.Name o)).
Proof.
  intros Hp Hget Hconv Hbad. unfold checkParentBackup.
  rewrite bool_decide_eq_true_2 by done.
  unfold Get. rewrite Hget, bind_Ok, Hconv.
  unfold lift. rewrite bind_Ok.
  case_bool_decide as Hph; [done|].
  rewrite bool_decide_eq_true_2; [done|].
  destruct Hbad; [done|done].
Qed.

(** C2. Let a parent backup name be given, and let the parent backup, as the
    API server returns it, be not completed or carry an instance label
    different from the cluster name.  Then [Validate] returns an error; and
    whenever it has fetched the parent backup, the message of the error
    contains the name of the parent: it says that the parent is not
    completed, or else that it does not belong to the cluster.  The parent
    is fetched as soon as the checks before it pass. *)
Theorem Validate_parent_backup (env : Env) (o : cluster.CreateBackupOptions.t)
    (parentObj : Unstructured.t) (parent : Backup.t) :
  let pname := cluster.CreateBackupOptions.ParentBackupName o in
  let name := cluster.CreateBackupOptions.Name o in
  pname ≠ "" →
  dynGet env BackupGVR (cluster.CreateBackupOptions.Namespace o) pname
  = Ok parentObj →
  FromUnstructured_Backup env parentObj = Ok parent →
  Backup.Phase (Backup.status parent) ≠ BackupPhaseCompleted ∨
  index (ObjectMeta.Labels (Backup.meta parent)) util.AppInstanceLabelKey
  ≠ name →
  ∃ l e, cluster.Validate env o = (l, Err e) ∧
    (Exists isBackupGet l →
       Contains pname e ∧
       (Backup.Phase (Backup.status parent) ≠ BackupPhaseCompleted →
          e = "parent backup " +:+ pname +:+ " is not completed") ∧
       (Backup.Phase (Backup.status parent) = BackupPhaseCompleted →
          e = "parent backup " +:+ pname +:+ " is not belong to cluster " +:+
              name)) ∧
    (name ≠ "" →
     ∀ o1, outcome (resolvePolicy env o) = Ok o1 →
           outcome (checkPolicyAndMethod env o1) = Ok tt →
           Exists isBackupGet l).
Proof.
  intros pname name Hp Hget Hconv Hbad.
  rewrite Validate_stages. fold name.
  case_bool_decide as Hname.
  { eexists _, _. split; [reflexivity|].
    split; [by inversion 1|done]. }
  pose proof (resolvePolicy_no_backup_get env o) as Hl1.
  pose proof (resolvePolicy_frame env o) as Hframe.
  destruct (resolvePolicy env o) as [l1 [o1|e1]].
  2:{ eexists _, _. split; [reflexivity|].
      split; [intros H; by destruct Hl1|]. intros _ o1 [=]. }
  destruct (Hframe o1 eq_refl) as (Hn1 & Hns1 & Hp1).
  rewrite bind_Ok.
  pose proof (checkPolicyAndMethod_log env o1) as Hl2.
  destruct (checkPolicyAndMethod env o1) as [l2 [[]|e2]] eqn:Hcpm;
    unfold log in Hl2; simpl in Hl2; subst l2.
  2:{ eexists _, _. split; [reflexivity|]. split.
      - unfold log; simpl. rewrite Exists_app, Exists_cons, Exists_nil.
        simpl. intros [H|[[]|[]]]. by destruct Hl1.
      - intros _ o1' [= <-]. by rewrite Hcpm. }
  rewrite bind_Ok.
  rewrite (checkParentBackup_rejects env o1 parentObj parent);
    rewrite ?Hn1, ?Hns1, ?Hp1; try done.
  rewrite bind_Err. fold pname name.
  eexists _, _. split; [reflexivity|]. split.
  - intros _. case_bool_decide as Hph.
    + split; [apply Contains_middle|]. split; [done|]. by intros ?.
    + split; [apply Contains_middle|]. split; [by intros ?|done].
  - intros _ _ _ _. unfold log; simpl.
    rewrite !Exists_app. right. right. by constructor.
Qed.

(** In the example cluster the failed backup [b3] is refused as a parent:
    [kbcli cluster backup mycluster --method xtrabackup
    --policy mycluster-backup-policy --parent-backup b3]. *)
Lemma Validate_parent_backup_witness :
  cluster.Validate example.env
    (example.backupOptions "mycluster-backup-policy" "b3")
  = ([EvGet BackupPolicyGVR "default" "mycluster-backup-policy";
      EvGet BackupGVR "default" "b3"],
     Err "parent backup b3 is not completed") ∧
  ∃ l e, cluster.Validate example.env
           (example.backupOptions "mycluster-backup-policy" "b3")
         = (l, Err e) ∧
         (Exists isBackupGet l → Contains "b3" e).
Proof.
  split; [by vm_compute|].
  destruct (Validate_parent_backup example.env
    (example.backupOptions "mycluster-backup-policy" "b3") example.b3
    {| Backup.meta := Unstructured.meta example.b3;
       Backup.spec := Backup.mkSpec "xtrabackup";
       Backup.status := Backup.mkStatus "Failed" None "" [] None None |}
    ltac:(done) eq_refl eq_refl ltac:(by left))
    as (l & e & H & Hc & _).
  exists l, e. split; [exact H|]. intros Hl. exact (proj1 (Hc Hl)).
Defined.

(** ** list-backups *)

Lemma makeNameMap_lookup (names : list string) (n : string) :
  cluster.inNameMap (cluster.makeNameMap names) n = true ↔ n ∈ names.
Proof.
  unfold cluster.makeNameMap.
  assert (H : ∀ m : gmap string bool,
    cluster.inNameMap (foldl (λ m name, <[name := true]> m) m names) n = true
    ↔ n ∈ names ∨ cluster.inNameMap m n = true).
  { induction names as [|x names IH]; intros m; simpl.
    - rewrite elem_of_nil. tauto.
    - rewrite IH, elem_of_cons. unfold cluster.inNameMap.
      destruct (decide (x = n)) as [->|Hne].
      + rewrite lookup_insert_eq. simpl. tauto.
      + rewrite lookup_insert_ne by done.
        split; [tauto|]. intros [[?|?]|?]; auto; by subst. }
  rewrite H. unfold cluster.inNameMap. rewrite lookup_empty. simpl.
  split; [intros [?|?]; [done|discriminate]|auto].
Qed.

Lemma skip_iff_not_shown (names : list string) (b : Backup.t) :
  bool_decide (0 < length names)
  && negb (cluster.inNameMap (cluster.makeNameMap names) (Backup.Name b))
  = true ↔ ¬ shown names b.
Proof.
  rewrite andb_true_iff, negb_true_iff, bool_decide_eq_true.
  rewrite <-not_true_iff_false, makeNameMap_lookup. unfold shown.
  destruct names; simpl; [|split; [intros [_ ?] [?|?]; done|]].
  - split; [lia|]. intros []. by left.
  - intros H. split; [lia|]. intros ?. apply H. by right.
Qed.

(** The loop adds one row for each shown backup, in the order of the list,
    and fails when an object does not convert. *)
Lemma addBackupRows_Ok env names items tbl :
  Forall (λ u, is_Ok (FromUnstructured_Backup env u)) items →
  cluster.addBackupRows env names (cluster.makeNameMap names) items tbl
  = Ok (tbl ++ (cluster.backupRow <$>
                  filter (shown names) (typedBackups env items))).
Proof.
  intros H. revert tbl. induction H as [|u items Hu _ IH]; intros tbl; simpl.
  - by rewrite app_nil_r.
  - unfold typedBackups. simpl.
    destruct (FromUnstructured_Backup env u) as [b|e]; [|done]. simpl.
    fold (typedBackups env items).
    destruct (bool_decide _ && negb _) eqn:Hskip.
    + apply skip_iff_not_shown in Hskip.
      rewrite filter_cons_False by done. apply IH.
    + apply not_true_iff_false in Hskip.
      rewrite skip_iff_not_shown in Hskip. apply dec_stable in Hskip.
      rewrite filter_cons_True by done. rewrite IH. simpl.
      by rewrite <-app_assoc.
Qed.

Lemma addBackupRows_converts env names m items tbl rows :
  cluster.addBackupRows env names m items tbl = Ok rows →
  Forall (λ u, is_Ok (FromUnstructured_Backup env u)) items.
Proof.
  revert tbl. induction items as [|u items IH]; intros tbl; simpl.
  - constructor.
  - destruct (FromUnstructured_Backup env u) as [b|e] eqn:Hu; [|done].
    intros H. constructor; [by rewrite Hu|].
    destruct (_ && _) in H; eauto.
Qed.

#[local] Instance notLess_total :
  Total (sort.notLess cluster.unstructuredList_Less).
Proof.
  intros a b. unfold sort.notLess, cluster.unstructuredList_Less.
  rewrite !bool_decide_eq_false. lia.
Qed.

#[local] Instance notLess_trans :
  Transitive (sort.notLess cluster.unstructuredList_Less).
Proof.
  intros a b c. unfold sort.notLess, cluster.unstructuredList_Less.
  rewrite !bool_decide_eq_false. lia.
Qed.

Lemma typedBackups_sorted env items :
  StronglySorted (sort.notLess cluster.unstructuredList_Less) items →
  StronglySorted createdNoLater (typedBackups env items).
Proof.
  induction 1 as [|u items _ IH Hu]; [constructor|].
  unfold typedBackups. simpl.
  destruct (FromUnstructured_Backup env u) as [b|e] eqn:Hb; [|exact IH].
  simpl. constructor; [exact IH|].
  fold (typedBackups env items).
  apply Forall_forall. intros b' Hb'.
  apply list_elem_of_omap in Hb' as (u' & Hu' & Hconv).
  rewrite Forall_forall in Hu. specialize (Hu u' Hu').
  unfold sort.notLess, cluster.unstructuredList_Less in Hu.
  apply bool_decide_eq_false in Hu.
  unfold FromUnstructured_Backup in Hb, Hconv.
  destruct (decodeBackup env (Unstructured.content u)) as [[]|]; [|done].
  destruct (decodeBackup env (Unstructured.content u')) as [[]|]; [|done].
  simplify_eq. unfold createdNoLater, Backup.CreationTimestamp. simpl.
  unfold Unstructured.GetCreationTimestamp in Hu. lia.
Qed.

Lemma StronglySorted_filter {A} (R : relation A) (P : A → Prop)
    `{∀ x, Decision (P x)} (l : list A) :
  StronglySorted R l → StronglySorted R (filter P l).
Proof.
  induction 1 as [|x l _ IH Hx]; [constructor|].
  rewrite filter_cons. case_decide; [|done].
  constructor; [done|].
  rewrite Forall_forall in Hx |- *.
  intros y [_ Hy]%list_elem_of_filter. auto.
Qed.

(** [PrintBackupList] in tabular mode, case by case. *)
Lemma PrintBackupList_tabular Run env (o : cluster.ListBackupOptions.t) :
  let lo := cluster.ListBackupOptions.ListOptions o in
  let list := EvList BackupGVR (listNamespace lo)
                (ListOptions.LabelSelector lo) (ListOptions.FieldSelector lo) in
  ListOptions.Format lo ≠ printer.JSON →
  ListOptions.Format lo ≠ printer.YAML →
  cluster.PrintBackupList Run env o =
    match DynamicClient env with
    | Err e => ([], Err e)
    | Ok _ =>
      match dynList env BackupGVR (listNamespace lo)
              (ListOptions.LabelSelector lo) (ListOptions.FieldSelector lo) with
      | Err e => ([list], Err e)
      | Ok items =>
        if bool_decide (length items = 0)
        then ([list; EvPrintNotFoundResources], Ok tt)
        else
          match cluster.addBackupRows env (ListOptions.Names lo)
                  (cluster.makeNameMap (ListOptions.Names lo))
                  (sort.Sort cluster.unstructuredList_Less items) [] with
          | Err e => ([list], Err e)
          | Ok rows =>
            ([list; EvTablePrint cluster.backupListHeader rows], Ok tt)
          end
      end
    end.
Proof.
  intros lo list HJ HY. unfold cluster.PrintBackupList. fold lo.
  rewrite !bool_decide_eq_false_2 by done. simpl orb. cbv iota.
  destruct (DynamicClient env) as [[]|e]; [|done].
  unfold lift. rewrite bind_Ok, app_nil_l, <-M_eta.
  assert (Hlo : ∀ lo', lo' = (if ListOptions.AllNamespaces lo
                              then ListOptions.setNamespace "" lo else lo) →
    ListOptions.Namespace lo' = listNamespace lo ∧
    ListOptions.LabelSelector lo' = ListOptions.LabelSelector lo ∧
    ListOptions.FieldSelector lo' = ListOptions.FieldSelector lo ∧
    ListOptions.Names lo' = ListOptions.Names lo).
  { intros lo' ->. unfold listNamespace.
    by destruct (ListOptions.AllNamespaces lo). }
  destruct (Hlo _ eq_refl) as (-> & -> & -> & ->).
  unfold List_. fold list.
  destruct (dynList env BackupGVR _ _ _) as [items|e]; [|done].
  rewrite bind_Ok.
  case_bool_decide; [done|].
  destruct (cluster.addBackupRows _ _ _ _ _) as [rows|e]; [|done].
  done.
Qed.

(** C5. In tabular mode, a table that [PrintBackupList] prints has one row
    for each backup of the remote list that is shown, and none for the
    others: when names are given, only the backups with one of these names
    are shown.  The rows are in the order of the creation timestamps,
    ascending.  A table is printed whenever the remote list is not empty and
    its objects convert. *)
Theorem PrintBackupList_sorted_filtered
    (Run : Env → ListOptions.t → M (list Unstructured.t)) (env : Env)
    (o : cluster.ListBackupOptions.t) :
  let lo := cluster.ListBackupOptions.ListOptions o in
  ListOptions.Format lo ≠ printer.JSON →
  ListOptions.Format lo ≠ printer.YAML →
  (∀ header rows,
     EvTablePrint header rows ∈ log (cluster.PrintBackupList Run env o) →
     ∃ items backups,
       dynList env BackupGVR (listNamespace lo)
         (ListOptions.LabelSelector lo) (ListOptions.FieldSelector lo)
       = Ok items ∧
       rows = cluster.backupRow <$> backups ∧
       backups ≡ₚ filter (shown (ListOptions.Names lo))
                    (typedBackups env items) ∧
       StronglySorted createdNoLater backups ∧
       StronglySorted (λ r1 r2, (rowCreateTime r1 ≤ rowCreateTime r2)%Z)
         rows ∧
       (ListOptions.Names lo ≠ [] →
          Forall (λ r, rowName r ∈ ListOptions.Names lo) rows)) ∧
  (∀ items,
     DynamicClient env = Ok tt →
     dynList env BackupGVR (listNamespace lo)
       (ListOptions.LabelSelector lo) (ListOptions.FieldSelector lo)
     = Ok items →
     items ≠ [] →
     Forall (λ u, is_Ok (FromUnstructured_Backup env u)) items →
     ∃ rows,
       cluster.PrintBackupList Run env o
       = ([EvList BackupGVR (listNamespace lo)
             (ListOptions.LabelSelector lo) (ListOptions.FieldSelector lo);
           EvTablePrint cluster.backupListHeader rows], Ok tt)).
Proof.
  intros lo HJ HY.
  rewrite (PrintBackupList_tabular Run env o HJ HY). fold lo.
  set (sorted items := sort.Sort cluster.unstructuredList_Less items).
  assert (Hperm : ∀ items, sorted items ≡ₚ items)
    by (intros; apply merge_sort_Permutation).
  assert (Hsorted : ∀ items,
    StronglySorted (sort.notLess cluster.unstructuredList_Less) (sorted items))
    by (intros; apply StronglySorted_merge_sort; apply _).
  split.
  - intros header rows Hin.
    destruct (DynamicClient env) as [[]|e];
      [|by apply elem_of_nil in Hin].
    destruct (dynList env BackupGVR _ _ _) as [items|e].
    2:{ apply elem_of_cons in Hin as [[=]|Hin]. by apply elem_of_nil in Hin. }
    case_bool_decide.
    { apply elem_of_cons in Hin as [[=]|Hin].
      apply elem_of_cons in Hin as [[=]|Hin]. by apply elem_of_nil in Hin. }
    destruct (cluster.addBackupRows _ _ _ _ _) as [rows'|e] eqn:Hrows.
    2:{ apply elem_of_cons in Hin as [[=]|Hin]. by apply elem_of_nil in Hin. }
    apply elem_of_cons in Hin as [[=]|Hin].
    apply elem_of_cons in Hin as [[= -> ->]|Hin];
      [|by apply elem_of_nil in Hin].
    pose proof (addBackupRows_converts _ _ _ _ _ _ Hrows) as Hconv.
    rewrite (addBackupRows_Ok _ _ _ _ Hconv) in Hrows.
    injection Hrows as <-. fold (sorted items).
    exists items,
      (filter (shown (ListOptions.Names lo)) (typedBackups env (sorted items))).
    assert (Hs : StronglySorted createdNoLater
      (filter (shown (ListOptions.Names lo))
         (typedBackups env (sorted items)))).
    { apply StronglySorted_filter, typedBackups_sorted, Hsorted. }
    split; [done|]. split; [done|]. split.
    { unfold typedBackups. by rewrite Hperm. }
    split; [done|]. split.
    { simpl. eapply (StronglySorted_fmap _ createdNoLater); [|exact Hs].
      intros a b Hab. exact Hab. }
    intros Hnames. simpl. apply Forall_fmap, Forall_forall.
    intros b [[?|Hb] _]%list_elem_of_filter; [done|exact Hb].
  - intros items -> Hlist Hne Hconv. rewrite Hlist.
    rewrite bool_decide_eq_false_2
      by (intros ?%nil_length_inv; done).
    fold (sorted items).
    rewrite addBackupRows_Ok; [by eexists|].
    apply Forall_forall. intros u Hu. rewrite Forall_forall in Hconv.
    apply Hconv. by rewrite <-(Hperm items).
Qed.

(** [kbcli cluster list-backups] on the example cluster: the rows are b3,
    b1, b2, from the oldest to the newest. *)
Lemma PrintBackupList_sorted_filtered_witness :
  let o := cluster.ListBackupOptions.mk
             (ListOptions.mk BackupGVR [] "default" false "" "" "") "" in
  (∃ rows,
     cluster.PrintBackupList ListOptions_Run example.env o
     = ([EvList BackupGVR "default" "" "";
         EvTablePrint cluster.backupListHeader rows], Ok tt)) ∧
  ∃ rows,
    cluster.PrintBackupList ListOptions_Run example.env o
    = ([EvList BackupGVR "default" "" "";
        EvTablePrint cluster.backupListHeader rows], Ok tt) ∧
    rowName <$> rows = ["b3"; "b1"; "b2"] ∧
    rowCreateTime <$> rows = [50; 100; 200]%Z.
Proof.
  split.
  - refine (proj2 (PrintBackupList_sorted_filtered ListOptions_Run example.env
      (cluster.ListBackupOptions.mk
         (ListOptions.mk BackupGVR [] "default" false "" "" "") "")
      _ _) [example.b1; example.b2; example.b3] eq_refl eq_refl _ _).
    + done.
    + done.
    + done.
    + repeat constructor.
  - eexists. split; [by vm_compute|]. by vm_compute.
Defined.

(** The options that [PrintBackupList] passes to the generic [Run]. *)
Lemma PrintBackupList_structured_eq Run env (o : cluster.ListBackupOptions.t) :
  let lo := cluster.ListBackupOptions.ListOptions o in
  ListOptions.Format lo = printer.JSON ∨ ListOptions.Format lo = printer.YAML →
  cluster.PrintBackupList Run env o
  = (_ ← Run env
           (if bool_decide (cluster.ListBackupOptions.BackupName o ≠ "")
            then ListOptions.setNames [cluster.ListBackupOptions.BackupName o] lo
            else lo);
     mret tt).
Proof.
  intros lo H. unfold cluster.PrintBackupList. fold lo.
  destruct H as [-> | ->]; by repeat case_bool_decide.
Qed.

(** C6. When the format is JSON or YAML, [PrintBackupList] is the generic
    [ListOptions.Run], on the options restricted to [--name] when that flag
    is set: whatever [Run] is, [PrintBackupList] has exactly its effects and
    its error, and adds no table.  For the [Run] of the specification, the
    output is the remote list itself (restricted to the names), handed to the
    printer of the format. *)
Theorem PrintBackupList_structured
    (Run : Env → ListOptions.t → M (list Unstructured.t)) (env : Env)
    (o : cluster.ListBackupOptions.t) :
  let lo := cluster.ListBackupOptions.ListOptions o in
  let lo' := if bool_decide (cluster.ListBackupOptions.BackupName o ≠ "")
             then ListOptions.setNames
                    [cluster.ListBackupOptions.BackupName o] lo
             else lo in
  ListOptions.Format lo = printer.JSON ∨ ListOptions.Format lo = printer.YAML →
  log (cluster.PrintBackupList Run env o) = log (Run env lo') ∧
  outcome (cluster.PrintBackupList Run env o)
  = match outcome (Run env lo') with Ok _ => Ok tt | Err e => Err e end ∧
  (∀ items,
     dynList env (ListOptions.GVR lo) (listNamespace lo)
       (ListOptions.LabelSelector lo) (ListOptions.FieldSelector lo)
     = Ok items →
     cluster.PrintBackupList ListOptions_Run env o
     = ([EvList (ListOptions.GVR lo) (listNamespace lo)
           (ListOptions.LabelSelector lo) (ListOptions.FieldSelector lo);
         EvPrintObjects (ListOptions.Format lo)
           (if bool_decide (cluster.ListBackupOptions.BackupName o ≠ "")
            then filter (λ u, Unstructured.GetName u
                              = cluster.ListBackupOptions.BackupName o) items
            else match ListOptions.Names lo with
                 | [] => items
                 | names => filter (λ u, Unstructured.GetName u ∈ names) items
                 end)],
        Ok tt)).
Proof.
  intros lo lo' Hfmt.
  split; [|split].
  - rewrite (PrintBackupList_structured_eq Run env o Hfmt). fold lo lo'.
    rewrite log_bind. destruct (outcome (Run env lo')); by rewrite app_nil_r.
  - rewrite (PrintBackupList_structured_eq Run env o Hfmt). fold lo lo'.
    rewrite outcome_bind. by destruct (outcome (Run env lo')).
  - intros items Hlist.
    rewrite (PrintBackupList_structured_eq ListOptions_Run env o Hfmt).
    fold lo lo'. unfold ListOptions_Run, List_.
    assert (Hlo' : ListOptions.GVR lo' = ListOptions.GVR lo ∧
      (if ListOptions.AllNamespaces lo' then "" else ListOptions.Namespace lo')
      = listNamespace lo ∧
      ListOptions.LabelSelector lo' = ListOptions.LabelSelector lo ∧
      ListOptions.FieldSelector lo' = ListOptions.FieldSelector lo ∧
      ListOptions.Format lo' = ListOptions.Format lo).
    { unfold lo'. by case_bool_decide. }
    destruct Hlo' as (-> & -> & -> & -> & ->). rewrite Hlist.
    rewrite bind_Ok. unfold emit. rewrite bind_Ok. simpl.
    unfold lo'. case_bool_decide as Hn; simpl; [|done].
    do 4 f_equal. apply list_filter_iff. intros u.
    rewrite elem_of_cons, elem_of_nil. tauto.
Qed.

(** [kbcli cluster list-backups -o yaml --name b1] on the example cluster
    prints the object [b1] as the server returned it. *)
Lemma PrintBackupList_structured_witness :
  cluster.PrintBackupList ListOptions_Run example.env
    (cluster.ListBackupOptions.mk
       (ListOptions.mk BackupGVR [] "default" false "" "" "yaml") "b1")
  = ([EvList BackupGVR "default" "" "";
      EvPrintObjects "yaml" [example.b1]], Ok tt).
Proof.
  pose proof (PrintBackupList_structured ListOptions_Run example.env
    (cluster.ListBackupOptions.mk
       (ListOptions.mk BackupGVR [] "default" false "" "" "yaml") "b1")
    (or_intror eq_refl)) as (_ & _ & H).
  exact (H [example.b1; example.b2; example.b3] eq_refl).
Defined.

(** ** edit-backup-policy *)

Lemma string_app_cons (c : ascii) (s t : string) :
  String c s +:+ t = String c (s +:+ t).
Proof. done. Qed.

Lemma string_app_assoc (s t u : string) : (s +:+ t) +:+ u = s +:+ t +:+ u.
Proof.
  induction s as [|c s IH]; [done|]. rewrite !string_app_cons. by f_equal.
Qed.

Lemma string_app_empty_r (s : string) : s +:+ "" = s.
Proof.
  induction s as [|c s IH]; [done|]. rewrite string_app_cons. by f_equal.
Qed.

(** One turn of the loop of [applyChanges]. *)
Lemma applyRows_cons keyMap v rest target backupPolicy :
  cluster.applyRows keyMap (v :: rest) target backupPolicy =
    match classify keyMap v with
    | Skipped => cluster.applyRows keyMap rest target backupPolicy
    | Rejected err => fail err
    | Applies k val updateFn =>
      _ ← emit (EvUpdateField k val);
      backupPolicy ← updateFn backupPolicy val;
      cluster.applyRows keyMap rest (target +:+ strings.TrimSpace v)
        backupPolicy
    end.
Proof.
  unfold classify. simpl.
  destruct (_ || _); [done|].
  destruct (strings.Split _ _) as [|a [|b [|c l]]]; try done.
  by destruct (keyMap !! a).
Qed.

Lemma classify_Applies keyMap v k val updateFn :
  classify keyMap v = Applies k val updateFn → keyMap !! k = Some updateFn.
Proof.
  unfold classify. destruct (_ || _); [done|].
  destruct (strings.Split _ _) as [|a [|b [|c l]]]; try done.
  destruct (keyMap !! a) eqn:Ha; [|done]. by intros [= <- _ <-].
Qed.


Lemma targetText_cons keyMap v rest :
  targetText (v :: rest) =
    match classify keyMap v with
    | Skipped => targetText rest
    | _ => strings.TrimSpace v +:+ targetText rest
    end.
Proof.
  unfold classify. simpl.
  destruct (_ || _); [done|].
  destruct (strings.Split _ _) as [|a [|b [|c l]]]; try done.
  by destruct (keyMap !! a).
Qed.

Lemma applyRows_target keyMap rows target backupPolicy target' backupPolicy' :
  outcome (cluster.applyRows keyMap rows target backupPolicy)
  = Ok (target', backupPolicy') →
  target' = target +:+ targetText rows.
Proof.
  revert target backupPolicy.
  induction rows as [|v rows IH]; intros target backupPolicy.
  - intros [= <- _]. by rewrite string_app_empty_r.
  - rewrite applyRows_cons, (targetText_cons keyMap).
    destruct (classify keyMap v) as [|err|k val updateFn]; [apply IH|done|].
    rewrite outcome_bind. cbn [outcome emit snd].
    rewrite outcome_bind.
    destruct (outcome (updateFn _ _)) as [bp'|]; [|done].
    intros H%IH. by rewrite H, string_app_assoc.
Qed.

Lemma isRead_not_mutating ev : isRead ev → mutating ev = false.
Proof. by destruct ev. Qed.

Lemma applyRows_readOnly keyMap rows target backupPolicy :
  readsOnly keyMap →
  readOnly (cluster.applyRows keyMap rows target backupPolicy).
Proof.
  intros Hk. unfold readOnly. revert target backupPolicy.
  induction rows as [|v rows IH]; intros target backupPolicy.
  - apply logAll_ret.
  - rewrite applyRows_cons.
    destruct (classify keyMap v) as [|err|k val updateFn] eqn:Hc.
    + apply IH.
    + apply logAll_fail.
    + apply logAll_bind; [by apply logAll_emit|]. intros _.
      apply logAll_bind; [|intros; apply IH].
      apply classify_Applies in Hc.
      eapply Forall_impl; [apply (Hk _ _ Hc)|].
      apply isRead_not_mutating.
Qed.





(** The table of [edit-backup-policy]. *)
Lemma complete_readsOnly env o args o' :
  cluster.complete env o args = Ok o' →
  readsOnly (cluster.editBackupPolicyOptions.editContentKeyMap o').
Proof.
  unfold cluster.complete. destruct args as [|a [|b args]]; try done.
  destruct (KubeConfigNamespace env); [|done].
  destruct (DynamicClient env); [|done].
  intros [= <-]. simpl. intros k fn.
  destruct (decide (k = "backupRepoName")) as [->|Hne].
  - rewrite lookup_insert_eq. intros [= <-] bp val.
    unfold cluster.updateRepoName. repeat logAll_step.
  - by rewrite lookup_insert_ne, lookup_empty.
Qed.

Lemma editOptions_readsOnly values :
  readsOnly (cluster.editBackupPolicyOptions.editContentKeyMap
               (example.editOptions values)).
Proof.
  apply (complete_readsOnly example.env
    (cluster.editBackupPolicyOptions.mk "" "" [] ∅ "" "" values)
    ["mycluster-backup-policy"]).
  reflexivity.
Qed.

(** C3. When all lines have been processed and the text collected from them
    in [o.target] equals [o.original], [applyChanges] prints
    ["updated (no change)"] and succeeds; its effects are those of the update
    functions and this line: no update request is sent. *)
Theorem applyChanges_no_change (env : Env)
    (o : cluster.editBackupPolicyOptions.t) (backupPolicy : BackupPolicy.t)
    (l : list Event) (target' : string) (backupPolicy' : BackupPolicy.t) :
  let keyMap := cluster.editBackupPolicyOptions.editContentKeyMap o in
  readsOnly keyMap →
  cluster.applyRows keyMap (cluster.editBackupPolicyOptions.values o)
    (cluster.editBackupPolicyOptions.target o) backupPolicy
  = (l, Ok (target', backupPolicy')) →
  cluster.editBackupPolicyOptions.original o = target' →
  cluster.applyChanges env o backupPolicy
  = (l ++ [EvFprintln "updated (no change)"],
     Ok (cluster.editBackupPolicyOptions.setTarget target' o, backupPolicy')) ∧
  target' = cluster.editBackupPolicyOptions.target o +:+
            targetText (cluster.editBackupPolicyOptions.values o) ∧
  readOnly (cluster.applyChanges env o backupPolicy) ∧
  Forall (λ ev, ∀ gvr ns obj, ev ≠ EvUpdate gvr ns obj)
    (log (cluster.applyChanges env o backupPolicy)).
Proof.
  intros keyMap Hk Hrows Horig.
  assert (Heq : cluster.applyChanges env o backupPolicy
    = (l ++ [EvFprintln "updated (no change)"],
       Ok (cluster.editBackupPolicyOptions.setTarget target' o,
           backupPolicy'))).
  { unfold cluster.applyChanges. fold keyMap. rewrite Hrows, bind_Ok.
    cbn [cluster.editBackupPolicyOptions.original
         cluster.editBackupPolicyOptions.target
         cluster.editBackupPolicyOptions.setTarget].
    rewrite bool_decide_eq_true_2 by done.
    unfold emit. by rewrite bind_Ok. }
  assert (Hro : readOnly (cluster.applyChanges env o backupPolicy)).
  { rewrite Heq. unfold readOnly, logAll. cbn [log fst].
    apply Forall_app. split; [|by repeat constructor].
    pose proof (applyRows_readOnly keyMap
      (cluster.editBackupPolicyOptions.values o)
      (cluster.editBackupPolicyOptions.target o) backupPolicy Hk) as H.
    by rewrite Hrows in H. }
  split; [exact Heq|]. split.
  - eapply applyRows_target. by rewrite Hrows.
  - split; [exact Hro|].
    eapply Forall_impl; [exact Hro|].
    intros ev Hev gvr ns obj ->. done.
Qed.

(** Saving the editor text unchanged: the policy has no backup repository,
    the text is [backupRepoName=]. *)
Lemma applyChanges_no_change_witness :
  let o := cluster.editBackupPolicyOptions.mk "default"
             "mycluster-backup-policy" []
             (cluster.editBackupPolicyOptions.editContentKeyMap
                (example.editOptions []))
             "backupRepoName=" "" ["# edit"; "backupRepoName="] in
  cluster.applyChanges example.env o example.backupPolicy
  = ([EvUpdateField "backupRepoName" ""; EvFprintln "updated (no change)"],
     Ok (cluster.editBackupPolicyOptions.setTarget "backupRepoName=" o,
         example.backupPolicy)).
Proof.
  refine (proj1 (applyChanges_no_change example.env
    (cluster.editBackupPolicyOptions.mk "default"
       "mycluster-backup-policy" []
       (cluster.editBackupPolicyOptions.editContentKeyMap
          (example.editOptions []))
       "backupRepoName=" "" ["# edit"; "backupRepoName="])
    example.backupPolicy [EvUpdateField "backupRepoName" ""]
    "backupRepoName=" example.backupPolicy _ _ eq_refl)).
  - exact (editOptions_readsOnly []).
  - by vm_compute.
Defined.




(** * Further properties of the commands *)

(** ** backup: completion with a given name *)

(** X1. A backup name given with [--name] is kept as it is: no name is
    generated, whatever the clock reads, and the OpsRequest gets the given
    name.  Nothing else of the flags changes. *)
Theorem CompleteBackup_given_name
    (Complete : CreateOptions.t → result CreateOptions.t) (now : Clock)
    (o : cluster.CreateBackupOptions.t) (base : CreateOptions.t) :
  cluster.CreateBackupOptions.BackupName o ≠ "" →
  Complete (cluster.CreateBackupOptions.CreateOptions o) = Ok base →
  Complete base = Ok base →
  cluster.CompleteBackup Complete now o
  = Ok (cluster.CreateBackupOptions.mk
          (cluster.CreateBackupOptions.BackupSpec o)
          (CreateOptions.Name base) cluster.BackupType
          (cluster.CreateBackupOptions.BackupName o) base).
Proof.
  intros Hname Hc Hidem.
  unfold cluster.CompleteBackup. rewrite Hc.
  destruct o as [bs cref ot orn co].
  unfold cluster.CreateBackupOptions.BackupName in *. simpl in *.
  rewrite bool_decide_eq_false_2 by (by rewrite length_zero_empty).
  simpl. by rewrite Hidem.
Qed.

(** [kbcli cluster backup mycluster --name nightly] *)
Lemma CompleteBackup_given_name_witness :
  cluster.CompleteBackup
    (λ base, Ok (CreateOptions.mk "default" "mycluster"
                   (CreateOptions.Args base)))
    (mkClock 2023 6 16 19 0 23)
    (cluster.CreateBackupOptions.mk
       (cluster.BackupSpec.mk "nightly" "" "" "Delete" "" "") "" "" ""
       (CreateOptions.mk "" "" ["mycluster"]))
  = Ok (cluster.CreateBackupOptions.mk
          (cluster.BackupSpec.mk "nightly" "" "" "Delete" "" "")
          "mycluster" "Backup" "nightly"
          (CreateOptions.mk "default" "mycluster" ["mycluster"])).
Proof.
  exact (CompleteBackup_given_name
    (λ base, Ok (CreateOptions.mk "default" "mycluster"
                   (CreateOptions.Args base)))
    (mkClock 2023 6 16 19 0 23)
    (cluster.CreateBackupOptions.mk
       (cluster.BackupSpec.mk "nightly" "" "" "Delete" "" "") "" "" ""
       (CreateOptions.mk "" "" ["mycluster"]))
    (CreateOptions.mk "default" "mycluster" ["mycluster"])
    ltac:(done) eq_refl eq_refl).
Defined.

(** ** delete-backup: the arguments *)

(** X2. [completeForDeleteBackup] succeeds exactly when one cluster name is
    given together with [--force] or at least one [--name].  The number of
    cluster names is checked first: with none, or with more than one, the
    error is about the cluster name whatever the flags are. *)
Theorem completeForDeleteBackup_accepts (o : DeleteOptions.t)
    (args : list string) :
  (is_Ok (cluster.completeForDeleteBackup o args) ↔
     length args = 1 ∧
     (DeleteOptions.Force o = true ∨ DeleteOptions.Names o ≠ [])) ∧
  (args = [] →
     cluster.completeForDeleteBackup o args = Err "Missing cluster name") ∧
  (1 < length args →
     cluster.completeForDeleteBackup o args
     = Err "Only supported delete the Backup of one cluster").
Proof.
  unfold cluster.completeForDeleteBackup.
  destruct o as [names confirmed sel force]; simpl.
  destruct args as [|a [|b rest]]; [| |];
    destruct force, names; simpl;
    (split; [split|split]); intros; simpl in *; try done; try lia;
    try (split; [done|]; by (left + right));
    repeat match goal with
           | H : _ ∧ _ |- _ => destruct H
           | H : _ ∨ _ |- _ => destruct H
           end; try done; try lia.
Qed.

(** ** backup: what validation checks *)

Lemma checkPolicyAndMethod_outcome env o :
  outcome (checkPolicyAndMethod env o) = Ok tt ↔
    (∃ u, dynGet env BackupPolicyGVR (cluster.CreateBackupOptions.Namespace o)
            (cluster.CreateBackupOptions.BackupPolicyName o) = Ok u ∧
          is_Ok (FromUnstructured_BackupPolicy env u)) ∧
    cluster.CreateBackupOptions.BackupMethod o ≠ "" ∧
    (cluster.CreateBackupOptions.RetentionPeriod o ≠ "" →
       is_Ok (ToDuration env (cluster.CreateBackupOptions.RetentionPeriod o))).
Proof.
  unfold checkPolicyAndMethod.
  rewrite outcome_bind, outcome_Get.
  destruct (dynGet env _ _ _) as [u|e].
  2:{ split; [done|]. by intros [(u & ? & _) _]. }
  rewrite outcome_bind, outcome_lift.
  destruct (FromUnstructured_BackupPolicy env u) as [p|e] eqn:Hp.
  2:{ split; [done|]. intros [(u' & [= <-] & Hu) _]. by rewrite Hp in Hu. }
  case_bool_decide as Hm.
  { split; [done|]. by intros (_ & ? & _). }
  case_bool_decide as Hr.
  - destruct (ToDuration env _) as [d|e].
    + split; [|done]. intros _. split; [|done]. exists u. by rewrite Hp.
    + split; [done|]. intros (_ & _ & H). by destruct (H Hr).
  - split; [|done]. intros _. split; [|done]. exists u. by rewrite Hp.
Qed.

Lemma checkParentBackup_outcome env o :
  outcome (checkParentBackup env o) = Ok tt ↔
    (cluster.CreateBackupOptions.ParentBackupName o ≠ "" →
     ∃ u parent,
       dynGet env BackupGVR (cluster.CreateBackupOptions.Namespace o)
         (cluster.CreateBackupOptions.ParentBackupName o) = Ok u ∧
       FromUnstructured_Backup env u = Ok parent ∧
       Backup.Phase (Backup.status parent) = BackupPhaseCompleted ∧
       index (ObjectMeta.Labels (Backup.meta parent)) util.AppInstanceLabelKey
       = cluster.CreateBackupOptions.Name o).
Proof.
  unfold checkParentBackup. case_bool_decide as Hp; [|done].
  rewrite outcome_bind, outcome_Get.
  destruct (dynGet env _ _ _) as [u|e].
  2:{ split; [done|]. intros H. by destruct (H Hp) as (? & ? & ? & _). }
  rewrite outcome_bind, outcome_lift.
  destruct (FromUnstructured_Backup env u) as [parent|e] eqn:Hconv.
  2:{ split; [done|]. intros H.
      destruct (H Hp) as (? & ? & [= <-] & Hc & _). by rewrite Hconv in Hc. }
  case_bool_decide as Hph.
  { split; [done|]. intros H.
    destruct (H Hp) as (? & ? & [= <-] & Hc & ? & _).
    rewrite Hconv in Hc. by injection Hc as <-. }
  case_bool_decide as Hl.
  { split; [done|]. intros H.
    destruct (H Hp) as (? & ? & [= <-] & Hc & _ & ?).
    rewrite Hconv in Hc. by injection Hc as <-. }
  split; [|done]. intros _ _. by exists u, parent.
Qed.

Lemma Validate_outcome_stages env o o' :
  outcome (cluster.Validate env o) = Ok o' ↔
    cluster.CreateBackupOptions.Name o ≠ "" ∧
    outcome (resolvePolicy env o) = Ok o' ∧
    outcome (checkPolicyAndMethod env o') = Ok tt ∧
    outcome (checkParentBackup env o') = Ok tt.
Proof.
  rewrite Validate_stages. case_bool_decide as Hn.
  { split; [done|]. by intros [? _]. }
  rewrite outcome_bind.
  destruct (outcome (resolvePolicy env o)) as [o1|e].
  2:{ split; [done|]. by intros (_ & ? & _). }
  rewrite outcome_bind.
  destruct (outcome (checkPolicyAndMethod env o1)) as [[]|e] eqn:H1.
  2:{ split; [done|]. intros (_ & [= <-] & H & _). by rewrite H1 in H. }
  rewrite outcome_bind.
  destruct (outcome (checkParentBackup env o1)) as [[]|e] eqn:H2.
  2:{ split; [done|]. intros (_ & [= <-] & _ & H). by rewrite H2 in H. }
  split.
  - intros [= <-]. by rewrite H1, H2.
  - by intros (_ & [= <-] & _).
Qed.

(** X3. [Validate] accepts a backup request exactly when the cluster name
    and the method are not empty, the backup policy (the given one, or the
    default one resolved when none is given) exists and converts, the
    retention period, if any, is well formed, and the parent backup, if any,
    exists, is completed and carries the instance label of the cluster.  The
    options come back unchanged but for the resolved policy name. *)
Theorem Validate_accepts (env : Env) (o o' : cluster.CreateBackupOptions.t) :
  outcome (cluster.Validate env o) = Ok o' ↔
    cluster.CreateBackupOptions.Name o ≠ "" ∧
    ((cluster.CreateBackupOptions.BackupPolicyName o ≠ "" ∧ o' = o) ∨
     (cluster.CreateBackupOptions.BackupPolicyName o = "" ∧
      ∃ p, outcome (cluster.getDefaultBackupPolicy env o) = Ok p ∧
           o' = cluster.CreateBackupOptions.setBackupSpec
                  (cluster.BackupSpec.setBackupPolicyName p
                     (cluster.CreateBackupOptions.BackupSpec o)) o)) ∧
    (∃ u, dynGet env BackupPolicyGVR (cluster.CreateBackupOptions.Namespace o)
            (cluster.CreateBackupOptions.BackupPolicyName o') = Ok u ∧
          is_Ok (FromUnstructured_BackupPolicy env u)) ∧
    cluster.CreateBackupOptions.BackupMethod o ≠ "" ∧
    (cluster.CreateBackupOptions.RetentionPeriod o ≠ "" →
       is_Ok (ToDuration env (cluster.CreateBackupOptions.RetentionPeriod o))) ∧
    (cluster.CreateBackupOptions.ParentBackupName o ≠ "" →
     ∃ u parent,
       dynGet env BackupGVR (cluster.CreateBackupOptions.Namespace o)
         (cluster.CreateBackupOptions.ParentBackupName o) = Ok u ∧
       FromUnstructured_Backup env u = Ok parent ∧
       Backup.Phase (Backup.status parent) = BackupPhaseCompleted ∧
       index (ObjectMeta.Labels (Backup.meta parent)) util.AppInstanceLabelKey
       = cluster.CreateBackupOptions.Name o).
Proof.
  rewrite Validate_outcome_stages, checkPolicyAndMethod_outcome,
    checkParentBackup_outcome.
  split.
  - intros (Hn & Hres & (Hpol & Hm & Hr) & Hpar).
    pose proof (resolvePolicy_outcome env o o' Hres) as Hcase.
    assert (Hsame :
      cluster.CreateBackupOptions.Namespace o'
      = cluster.CreateBackupOptions.Namespace o ∧
      cluster.CreateBackupOptions.BackupMethod o'
      = cluster.CreateBackupOptions.BackupMethod o ∧
      cluster.CreateBackupOptions.RetentionPeriod o'
      = cluster.CreateBackupOptions.RetentionPeriod o ∧
      cluster.CreateBackupOptions.ParentBackupName o'
      = cluster.CreateBackupOptions.ParentBackupName o ∧
      cluster.CreateBackupOptions.Name o' = cluster.CreateBackupOptions.Name o).
    { by destruct Hcase as [[_ ->]|[_ (p & _ & ->)]]. }
    destruct Hsame as (Hns & Hme & Hre & Hpa & Hna).
    rewrite Hns, Hme, Hre, Hpa, Hna in *. done.
  - intros (Hn & Hcase & Hpol & Hm & Hr & Hpar).
    assert (Hres : outcome (resolvePolicy env o) = Ok o').
    { unfold resolvePolicy.
      destruct Hcase as [[Hp ->]|[Hp (p & Hd & ->)]].
      - by rewrite bool_decide_eq_false_2.
      - rewrite bool_decide_eq_true_2 by done.
        unfold cluster.completeDefaultBackupPolicy.
        by rewrite outcome_bind, Hd. }
    assert (Hsame :
      cluster.CreateBackupOptions.Namespace o'
      = cluster.CreateBackupOptions.Namespace o ∧
      cluster.CreateBackupOptions.BackupMethod o'
      = cluster.CreateBackupOptions.BackupMethod o ∧
      cluster.CreateBackupOptions.RetentionPeriod o'
      = cluster.CreateBackupOptions.RetentionPeriod o ∧
      cluster.CreateBackupOptions.ParentBackupName o'
      = cluster.CreateBackupOptions.ParentBackupName o ∧
      cluster.CreateBackupOptions.Name o' = cluster.CreateBackupOptions.Name o).
    { by destruct Hcase as [[_ ->]|[_ (p & _ & ->)]]. }
    destruct Hsame as (Hns & Hme & Hre & Hpa & Hna).
    rewrite Hns, Hme, Hre, Hpa, Hna. done.
Qed.

(** [kbcli cluster backup mycluster --method xtrabackup
    --policy mycluster-backup-policy --parent-backup b1] is accepted in the
    example cluster. *)
Lemma Validate_accepts_witness :
  outcome (cluster.Validate example.env
             (example.backupOptions "mycluster-backup-policy" "b1"))
  = Ok (example.backupOptions "mycluster-backup-policy" "b1").
Proof.
  apply Validate_accepts.
  split; [done|]. split; [by left|].
  split; [exists example.policy1; by split|].
  split; [done|]. split; [done|].
  intros _.
  exists example.b1,
    {| Backup.meta := Unstructured.meta example.b1;
       Backup.spec := Backup.mkSpec "xtrabackup";
       Backup.status := Backup.mkStatus "Completed" None "" [] None None |}.
  by repeat split.
Defined.

(** X4. Without a cluster name [Validate] fails before any request is sent.
    With an empty method, or a retention period that is not well formed, it
    fails without ever asking for the parent backup. *)
Theorem Validate_rejects_early (env : Env) (o : cluster.CreateBackupOptions.t) :
  (cluster.CreateBackupOptions.Name o = "" →
     cluster.Validate env o = ([], Err "missing cluster name")) ∧
  (cluster.CreateBackupOptions.BackupMethod o = "" ∨
   (cluster.CreateBackupOptions.RetentionPeriod o ≠ "" ∧
    is_Err (ToDuration env (cluster.CreateBackupOptions.RetentionPeriod o))) →
   is_Err (outcome (cluster.Validate env o)) ∧
   ¬ Exists isBackupGet (log (cluster.Validate env o))).
Proof.
  split.
  - intros Hn. unfold cluster.Validate. by rewrite bool_decide_eq_true_2.
  - intros Hbad. rewrite Validate_stages.
    case_bool_decide as Hn; [split; [done|by inversion 1]|].
    rewrite outcome_bind, log_bind.
    pose proof (resolvePolicy_no_backup_get env o) as Hl1.
    pose proof (resolvePolicy_outcome env o) as Hcase.
    destruct (outcome (resolvePolicy env o)) as [o1|e];
      [|split; [done|by rewrite app_nil_r]].
    assert (Hsame :
      cluster.CreateBackupOptions.BackupMethod o1
      = cluster.CreateBackupOptions.BackupMethod o ∧
      cluster.CreateBackupOptions.RetentionPeriod o1
      = cluster.CreateBackupOptions.RetentionPeriod o).
    { by destruct (Hcase o1 eq_refl) as [[_ ->]|[_ (p & _ & ->)]]. }
    destruct Hsame as (Hme & Hre).
    rewrite outcome_bind, log_bind, checkPolicyAndMethod_log.
    destruct (outcome (checkPolicyAndMethod env o1)) as [[]|e] eqn:H1.
    + apply checkPolicyAndMethod_outcome in H1 as (_ & Hm & Hr).
      rewrite Hme, Hre in *.
      destruct Hbad as [?|[Hne Herr]]; [done|].
      specialize (Hr Hne). by destruct (ToDuration env _).
    + split; [done|]. rewrite app_nil_r, Exists_app, Exists_cons, Exists_nil.
      simpl. tauto.
Qed.

(** In the example cluster [kbcli cluster backup mycluster
    --policy mycluster-backup-policy --parent-backup b3] without a method is
    refused for the method, and [b3] is not looked up. *)
Lemma Validate_rejects_early_witness :
  cluster.Validate example.env
    (cluster.CreateBackupOptions.mk
       (cluster.BackupSpec.mk "b" "mycluster-backup-policy" "" "Delete" "" "b3")
       "mycluster" "Backup" "b"
       (CreateOptions.mk "default" "mycluster" ["mycluster"]))
  = ([EvGet BackupPolicyGVR "default" "mycluster-backup-policy"],
     Err "backup method can not be empty, you can specify it by --method") ∧
  ¬ Exists isBackupGet
      (log (cluster.Validate example.env
              (cluster.CreateBackupOptions.mk
                 (cluster.BackupSpec.mk "b" "mycluster-backup-policy" ""
                    "Delete" "" "b3")
                 "mycluster" "Backup" "b"
                 (CreateOptions.mk "default" "mycluster" ["mycluster"])))).
Proof.
  split; [by vm_compute|].
  exact (proj2 (proj2 (Validate_rejects_early example.env
    (cluster.CreateBackupOptions.mk
       (cluster.BackupSpec.mk "b" "mycluster-backup-policy" "" "Delete" "" "b3")
       "mycluster" "Backup" "b"
       (CreateOptions.mk "default" "mycluster" ["mycluster"])))
    (or_introl eq_refl))).
Defined.

(** ** edit-backup-policy: a changed text *)

Lemma applyChanges_after_rows env o backupPolicy l target' backupPolicy' :
  let keyMap := cluster.editBackupPolicyOptions.editContentKeyMap o in
  let ns := ObjectMeta.Namespace (BackupPolicy.meta backupPolicy') in
  cluster.applyRows keyMap (cluster.editBackupPolicyOptions.values o)
    (cluster.editBackupPolicyOptions.target o) backupPolicy
  = (l, Ok (target', backupPolicy')) →
  cluster.editBackupPolicyOptions.original o ≠ target' →
  cluster.applyChanges env o backupPolicy =
    match encodeBackupPolicy env backupPolicy' with
    | Err e => (l, Err e)
    | Ok obj =>
      match dynUpdate env BackupPolicyGVR ns obj with
      | Err e => (l ++ [EvUpdate BackupPolicyGVR ns obj], Err e)
      | Ok _ =>
        (l ++ [EvUpdate BackupPolicyGVR ns obj; EvFprintln "updated"],
         Ok (cluster.editBackupPolicyOptions.setTarget target' o,
             backupPolicy'))
      end
    end.
Proof.
  intros keyMap ns Hrows Hne.
  unfold cluster.applyChanges. fold keyMap. rewrite Hrows, bind_Ok.
  cbn [cluster.editBackupPolicyOptions.original
       cluster.editBackupPolicyOptions.target
       cluster.editBackupPolicyOptions.setTarget].
  rewrite bool_decide_eq_false_2 by done. fold ns.
  unfold lift, Update, emit.
  destruct (encodeBackupPolicy env backupPolicy') as [obj|e].
  2:{ rewrite bind_Err. cbn [log outcome fst snd]. by rewrite app_nil_r. }
  rewrite bind_Ok, app_nil_l, <-M_eta.
  destruct (dynUpdate env BackupPolicyGVR ns obj) as [r|e].
  2:{ by rewrite bind_Err. }
  rewrite bind_Ok, bind_Ok. cbn [log outcome fst snd mret M_ret].
  by rewrite app_nil_r.
Qed.

Lemma filter_mutating_readOnly (l : list Event) :
  Forall (λ ev, mutating ev = false) l →
  filter (λ ev, mutating ev = true) l = [].
Proof.
  induction 1 as [|ev l Hev _ IH]; [done|].
  rewrite filter_cons_False; [done|]. by rewrite Hev.
Qed.

(** X5. When the lines have been applied and the collected text differs from
    [o.original], [applyChanges] sends the policy as the update functions left
    it, in one update request, after all the calls of update functions, and
    then prints ["updated"].  If the policy cannot be encoded nothing is
    sent; if the server refuses the update its error is returned and
    ["updated"] is not printed. *)
Theorem applyChanges_changed (env : Env)
    (o : cluster.editBackupPolicyOptions.t) (backupPolicy : BackupPolicy.t)
    (l : list Event) (target' : string) (backupPolicy' : BackupPolicy.t) :
  let keyMap := cluster.editBackupPolicyOptions.editContentKeyMap o in
  let ns := ObjectMeta.Namespace (BackupPolicy.meta backupPolicy') in
  readsOnly keyMap →
  cluster.applyRows keyMap (cluster.editBackupPolicyOptions.values o)
    (cluster.editBackupPolicyOptions.target o) backupPolicy
  = (l, Ok (target', backupPolicy')) →
  cluster.editBackupPolicyOptions.original o ≠ target' →
  (∀ e, encodeBackupPolicy env backupPolicy' = Err e →
     cluster.applyChanges env o backupPolicy = (l, Err e) ∧
     readOnly (cluster.applyChanges env o backupPolicy)) ∧
  (∀ obj, encodeBackupPolicy env backupPolicy' = Ok obj →
     (∀ e, dynUpdate env BackupPolicyGVR ns obj = Err e →
        cluster.applyChanges env o backupPolicy
        = (l ++ [EvUpdate BackupPolicyGVR ns obj], Err e)) ∧
     (∀ r, dynUpdate env BackupPolicyGVR ns obj = Ok r →
        cluster.applyChanges env o backupPolicy
        = (l ++ [EvUpdate BackupPolicyGVR ns obj; EvFprintln "updated"],
           Ok (cluster.editBackupPolicyOptions.setTarget target' o,
               backupPolicy'))) ∧
     filter (λ ev, mutating ev = true)
       (log (cluster.applyChanges env o backupPolicy))
     = [EvUpdate BackupPolicyGVR ns obj]).
Proof.
  intros keyMap ns Hk Hrows Hne.
  pose proof (applyRows_readOnly keyMap
    (cluster.editBackupPolicyOptions.values o)
    (cluster.editBackupPolicyOptions.target o) backupPolicy Hk) as Hro.
  rewrite Hrows in Hro. unfold readOnly, logAll in Hro. cbn [log fst] in Hro.
  pose proof (filter_mutating_readOnly l Hro) as Hl.
  rewrite (applyChanges_after_rows env o backupPolicy l target' backupPolicy'
             Hrows Hne). fold ns.
  split.
  - intros e ->. done.
  - intros obj ->. split; [by intros e ->|]. split; [by intros r ->|].
    destruct (dynUpdate env BackupPolicyGVR ns obj);
      cbn [log fst]; rewrite filter_app, Hl; done.
Qed.

(** [--set backupRepoName=] on the example policy: the repository is
    cleared and the policy is sent. *)
Lemma applyChanges_changed_witness :
  ∃ obj,
    cluster.applyChanges example.env (example.editOptions ["backupRepoName="])
      example.backupPolicy
    = ([EvUpdateField "backupRepoName" "";
        EvUpdate BackupPolicyGVR "default" obj; EvFprintln "updated"],
       Ok (cluster.editBackupPolicyOptions.setTarget "backupRepoName="
             (example.editOptions ["backupRepoName="]),
           example.backupPolicy)).
Proof.
  eexists.
  refine (proj1 (proj2 (proj2 (applyChanges_changed example.env
    (example.editOptions ["backupRepoName="]) example.backupPolicy
    [EvUpdateField "backupRepoName" ""] "backupRepoName="
    example.backupPolicy (editOptions_readsOnly _) _ _) _ eq_refl)) _ eq_refl).
  - by vm_compute.
  - done.
Defined.

(** ** list-backups: nothing is printed by halves *)

(** X6. In tabular mode [PrintBackupList] prints a table only when every
    object of the list converts: if one does not, the outcome is an error
    and nothing is printed after the list request.  For an empty list the
    message for no resources is printed instead of a table, and when the
    dynamic client cannot be built no request is sent. *)
Theorem PrintBackupList_no_partial_table
    (Run : Env → ListOptions.t → M (list Unstructured.t)) (env : Env)
    (o : cluster.ListBackupOptions.t) :
  let lo := cluster.ListBackupOptions.ListOptions o in
  let list := EvList BackupGVR (listNamespace lo)
                (ListOptions.LabelSelector lo) (ListOptions.FieldSelector lo) in
  ListOptions.Format lo ≠ printer.JSON →
  ListOptions.Format lo ≠ printer.YAML →
  (∀ e, DynamicClient env = Err e →
     cluster.PrintBackupList Run env o = ([], Err e)) ∧
  (∀ items,
     DynamicClient env = Ok tt →
     dynList env BackupGVR (listNamespace lo)
       (ListOptions.LabelSelector lo) (ListOptions.FieldSelector lo)
     = Ok items →
     (items = [] →
        cluster.PrintBackupList Run env o
        = ([list; EvPrintNotFoundResources], Ok tt)) ∧
     (Exists (λ u, is_Err (FromUnstructured_Backup env u)) items →
        log (cluster.PrintBackupList Run env o) = [list] ∧
        is_Err (outcome (cluster.PrintBackupList Run env o)))).
Proof.
  intros lo list HJ HY.
  rewrite (PrintBackupList_tabular Run env o HJ HY). fold lo list.
  split; [by intros e ->|].
  intros items -> ->. split; [by intros ->|].
  intros Hbad.
  rewrite bool_decide_eq_false_2
    by (intros ->%nil_length_inv; by inversion Hbad).
  destruct (cluster.addBackupRows _ _ _ _ _) as [rows|e] eqn:Hrows; [|done].
  exfalso.
  apply addBackupRows_converts in Hrows.
  apply Exists_exists in Hbad as (u & Hu & Herr).
  rewrite Forall_forall in Hrows.
  assert (Hin : u ∈ sort.Sort cluster.unstructuredList_Less items).
  { unfold sort.Sort. by rewrite merge_sort_Permutation. }
  specialize (Hrows u Hin).
  by destruct (FromUnstructured_Backup env u).
Qed.

(** When the backup [b3] of the example cluster does not convert,
    [kbcli cluster list-backups] prints no row at all. *)
Lemma PrintBackupList_no_partial_table_witness :
  cluster.PrintBackupList ListOptions_Run strictEnv
    (cluster.ListBackupOptions.mk
       (ListOptions.mk BackupGVR [] "default" false "" "" "") "")
  = ([EvList BackupGVR "default" "" ""], Err "cannot convert") ∧
  log (cluster.PrintBackupList ListOptions_Run strictEnv
         (cluster.ListBackupOptions.mk
            (ListOptions.mk BackupGVR [] "default" false "" "" "") ""))
  = [EvList BackupGVR "default" "" ""].
Proof.
  split; [by vm_compute|].
  refine (proj1 (proj2 (proj2 (PrintBackupList_no_partial_table
    ListOptions_Run strictEnv
    (cluster.ListBackupOptions.mk
       (ListOptions.mk BackupGVR [] "default" false "" "" "") "") _ _)
    [example.b1; example.b2; example.b3] eq_refl eq_refl) _)).
  - done.
  - done.
  - do 2 apply Exists_cons_tl. apply Exists_cons_hd. exact I.
Defined.

(** ** Lines of text *)













(** ** edit-backup-policy: the table, the editor and [--set] *)



(** What [complete] leaves in the options: the table with the one key
    [backupRepoName], and the flags as they were. *)
Lemma complete_table env o0 arg o :
  cluster.complete env o0 [arg] = Ok o →
  cluster.editBackupPolicyOptions.editContent o
  = [ {| cluster.key := "backupRepoName";
         cluster.jsonpath := "backupRepoName";
         cluster.updateFunc := cluster.updateRepoName env |} ] ∧
  cluster.editBackupPolicyOptions.editContentKeyMap o !! "backupRepoName"
  = Some (cluster.updateRepoName env) ∧
  cluster.editBackupPolicyOptions.original o
  = cluster.editBackupPolicyOptions.original o0 ∧
  cluster.editBackupPolicyOptions.target o
  = cluster.editBackupPolicyOptions.target o0 ∧
  cluster.editBackupPolicyOptions.values o
  = cluster.editBackupPolicyOptions.values o0 ∧
  cluster.editBackupPolicyOptions.name o = arg.
Proof.
  unfold cluster.complete.
  destruct (KubeConfigNamespace env); [|done].
  destruct (DynamicClient env); [|done].
  intros [= <-]. simpl. by rewrite lookup_insert_eq.
Qed.






Section editor_facts.

Context (FindResults :
           BackupPolicy.Spec → string → result (list (list ReflectValue)))
        (LaunchTempFile : string → string → result string)
        (GetResourceObjectFromGVR : Env → string → string → M BackupPolicy.t).

(** The editor text for the table of [complete], when the jsonpath library
    finds the field [backupRepoName] of the spec. *)
Lemma buildEditorContent_table env o0 arg o backupPolicy :
  cluster.complete env o0 [arg] = Ok o →
  FindResults (BackupPolicy.spec backupPolicy) "backupRepoName"
  = Ok [[PtrOrInterface
           (BackupPolicy.BackupRepoName (BackupPolicy.spec backupPolicy))]] →
  let text :=
    match BackupPolicy.BackupRepoName (BackupPolicy.spec backupPolicy) with
    | Some r => "backupRepoName=" +:+ r
    | None => ""
    end in
  buildEditorContent FindResults o backupPolicy
  = (setOriginal (cluster.editBackupPolicyOptions.original o +:+ text) o,
     Ok text).
Proof.
  intros Hc Hfind text.
  destruct (complete_table env o0 arg o Hc) as (Hcontent & _).
  unfold buildEditorContent. rewrite Hcontent.
  cbn [buildEditorRows cluster.jsonpath cluster.key].
  unfold getValueWithJsonpath. rewrite Hfind. cbn [firstValue]. unfold text.
  destruct (BackupPolicy.BackupRepoName (BackupPolicy.spec backupPolicy))
    as [r|].
  - done.
  - by rewrite string_app_empty_r.
Qed.

End editor_facts.



(** X9. An empty file does not abort the edit.  When the policy has a
    backup repository and the text that comes back from the editor is empty
    (as it is in test mode), no update function is called, and the policy is
    sent to the server as it was fetched. *)
Theorem runEditBackupPolicy_empty_text
    (FindResults :
       BackupPolicy.Spec → string → result (list (list ReflectValue)))
    (LaunchTempFile : string → string → result string)
    (GetResourceObjectFromGVR : Env → string → string → M BackupPolicy.t)
    (isTest : bool) (env : Env) (o0 o : cluster.editBackupPolicyOptions.t)
    (arg r : string) (backupPolicy : BackupPolicy.t) (l0 : list Event)
    (obj res : Unstructured.t) :
  let ns := ObjectMeta.Namespace (BackupPolicy.meta backupPolicy) in
  cluster.complete env o0 [arg] = Ok o →
  cluster.editBackupPolicyOptions.original o0 = "" →
  cluster.editBackupPolicyOptions.target o0 = "" →
  cluster.editBackupPolicyOptions.values o0 = [] →
  GetResourceObjectFromGVR env (cluster.editBackupPolicyOptions.namespace o)
    (cluster.editBackupPolicyOptions.name o) = (l0, Ok backupPolicy) →
  BackupPolicy.BackupRepoName (BackupPolicy.spec backupPolicy) = Some r →
  FindResults (BackupPolicy.spec backupPolicy) "backupRepoName"
  = Ok [[PtrOrInterface (Some r)]] →
  (isTest = true ∨ ∀ prefix text, LaunchTempFile prefix text = Ok "") →
  encodeBackupPolicy env backupPolicy = Ok obj →
  dynUpdate env BackupPolicyGVR ns obj = Ok res →
  log (runEditBackupPolicy FindResults LaunchTempFile GetResourceObjectFromGVR
         isTest env o)
  = l0 ++ [EvUpdate BackupPolicyGVR ns obj; EvFprintln "updated"] ∧
  ∃ o', outcome (runEditBackupPolicy FindResults LaunchTempFile
                   GetResourceObjectFromGVR isTest env o)
        = Ok (o', backupPolicy).
Proof.
  intros ns Hc Ho Ht Hv Hget Hrepo Hfind Hsave Henc Hupd.
  destruct (complete_table env o0 arg o Hc) as (_ & Hk & Ho' & Ht' & Hv' & _).
  rewrite Ho in Ho'. rewrite Ht in Ht'. rewrite Hv in Hv'.
  unfold runEditBackupPolicy. rewrite Hget, bind_Ok, Hv'.
  rewrite bool_decide_eq_true_2 by done.
  unfold runWithEditor. rewrite <-Hrepo in Hfind.
  rewrite (buildEditorContent_table FindResults env o0 arg o backupPolicy
             Hc Hfind).
  rewrite Hrepo, Ho'.
  assert (Hedited :
    (if isTest
     then (setOriginal ("" +:+ "backupRepoName=" +:+ r) o, Ok "")
     else (setOriginal ("" +:+ "backupRepoName=" +:+ r) o,
           LaunchTempFile
             (ObjectMeta.Name (BackupPolicy.meta backupPolicy) +:+ "-edit-")
             (addHeader ("backupRepoName=" +:+ r))))
    = (setOriginal ("backupRepoName=" +:+ r) o, Ok "")).
  { destruct Hsave as [-> | Hsave]; [done|].
    rewrite Hsave. by destruct isTest. }
  rewrite Hedited.
  set (o1 := setValues (strings.Split "" newline)
               (setOriginal ("backupRepoName=" +:+ r) o)).
  rewrite (applyChanges_after_rows env o1 backupPolicy [] "" backupPolicy).
  - cbv zeta. fold ns. rewrite Henc, Hupd. cbn [log outcome fst snd].
    split; [done|]. by eexists.
  - unfold o1. cbn [setValues setOriginal
      cluster.editBackupPolicyOptions.editContentKeyMap
      cluster.editBackupPolicyOptions.values
      cluster.editBackupPolicyOptions.target].
    rewrite Ht'. change (strings.Split "" newline) with [""].
    by rewrite applyRows_cons.
  - unfold o1. done.
Qed.

(** The example policy uses [repo1]: when the editor hands back an empty
    file the policy is sent all the same. *)
Lemma runEditBackupPolicy_empty_text_witness :
  log (runEditBackupPolicy findRepoName saveEmpty fetchPolicyWithRepo
         false repoEnv repoEditOptions)
  = [EvGet BackupPolicyGVR "default" "mycluster-backup-policy";
     EvUpdate BackupPolicyGVR "default"
       (Unstructured.mk (BackupPolicy.meta policyWithRepo) "");
     EvFprintln "updated"].
Proof.
  exact (proj1 (runEditBackupPolicy_empty_text findRepoName saveEmpty
    fetchPolicyWithRepo false repoEnv
    (cluster.editBackupPolicyOptions.mk "" "" [] ∅ "" "" [])
    repoEditOptions "mycluster-backup-policy" "repo1" policyWithRepo
    [EvGet BackupPolicyGVR "default" "mycluster-backup-policy"]
    (Unstructured.mk (BackupPolicy.meta policyWithRepo) "")
    (Unstructured.mk (BackupPolicy.meta policyWithRepo) "")
    eq_refl eq_refl eq_refl eq_refl eq_refl eq_refl eq_refl
    (or_intror (λ _ _, eq_refl)) eq_refl eq_refl)).
Defined.

(** ** list-backup-policy *)

Lemma FromUnstructured_BackupPolicy_Name env obj backupPolicy :
  FromUnstructured_BackupPolicy env obj = Ok backupPolicy →
  ObjectMeta.Name (BackupPolicy.meta backupPolicy) = Unstructured.GetName obj.
Proof.
  unfold FromUnstructured_BackupPolicy.
  destruct (decodeBackupPolicy env _) as [[sp ph]|e]; [|done].
  by intros [= <-].
Qed.

Lemma skip_iff_not_shownPolicy (names : list string) (obj : Unstructured.t) :
  bool_decide (0 < length names)
  && negb (cluster.inNameMap (cluster.makeNameMap names)
             (Unstructured.GetName obj))
  = true ↔ ¬ shownPolicy names obj.
Proof.
  rewrite andb_true_iff, negb_true_iff, bool_decide_eq_true.
  rewrite <-not_true_iff_false, makeNameMap_lookup. unfold shownPolicy.
  destruct names; simpl; [|split; [intros [_ ?] [?|?]; done|]].
  - split; [lia|]. intros []. by left.
  - intros H. split; [lia|]. intros ?. apply H. by right.
Qed.

(** The loop adds one row for each shown policy, in the order of the list. *)
Lemma addBackupPolicyRows_Ok env names items tbl :
  Forall (λ u, is_Ok (FromUnstructured_BackupPolicy env u)) items →
  addBackupPolicyRows env names (cluster.makeNameMap names) items tbl
  = Ok (tbl ++ omap (policyRow env) (filter (shownPolicy names) items)).
Proof.
  intros H. revert tbl. induction H as [|u items Hu _ IH]; intros tbl.
  - simpl. by rewrite app_nil_r.
  - cbn [addBackupPolicyRows].
    destruct (FromUnstructured_BackupPolicy env u) as [p|e] eqn:Hp; [|done].
    rewrite (FromUnstructured_BackupPolicy_Name _ _ _ Hp).
    destruct (bool_decide _ && negb _) eqn:Hskip.
    + apply skip_iff_not_shownPolicy in Hskip.
      rewrite filter_cons_False by done. apply IH.
    + apply not_true_iff_false in Hskip.
      rewrite skip_iff_not_shownPolicy in Hskip. apply dec_stable in Hskip.
      rewrite filter_cons_True by done. rewrite IH. cbn [omap list_omap].
      unfold policyRow at 2. rewrite Hp. rewrite <-app_assoc. simpl.
      do 3 f_equal. f_equal.
      unfold index. destruct (_ !! _) eqn:Ha.
      * by rewrite bool_decide_eq_true_2.
      * by rewrite bool_decide_eq_false_2 by (by intros [? ?]).
Qed.

(** The loop fails as soon as an object does not convert, shown or not. *)
Lemma addBackupPolicyRows_Err env names m items tbl :
  ¬ Forall (λ u, is_Ok (FromUnstructured_BackupPolicy env u)) items →
  is_Err (addBackupPolicyRows env names m items tbl).
Proof.
  revert tbl. induction items as [|u items IH]; intros tbl Hn.
  - destruct Hn. constructor.
  - cbn [addBackupPolicyRows].
    destruct (FromUnstructured_BackupPolicy env u) as [p|e] eqn:Hp; [|done].
    assert (Hn' : ¬ Forall (λ u, is_Ok (FromUnstructured_BackupPolicy env u))
                    items).
    { intros H. apply Hn. constructor; [by rewrite Hp|done]. }
    destruct (_ && _); by apply IH.
Qed.

(** X10. In table mode [list-backup-policy] sends one list request and shows
    the policies in the order in which the server lists them (it does not
    sort, unlike [list-backups]): one row for each policy whose name is
    among the given names, for every policy when no name is given.  A policy
    that does not convert fails the command, and no table is printed, also
    when its row would not be shown. *)
Theorem PrintBackupPolicyList_server_order
    (Run : Env → ListOptions.t → M (list Unstructured.t)) (env : Env)
    (o : ListOptions.t) (items : list Unstructured.t) :
  let list := EvList BackupPolicyGVR (listNamespace o)
                (ListOptions.LabelSelector o) (ListOptions.FieldSelector o) in
  let converts u := is_Ok (FromUnstructured_BackupPolicy env u) in
  ListOptions.Format o ≠ printer.JSON →
  ListOptions.Format o ≠ printer.YAML →
  DynamicClient env = Ok tt →
  dynList env BackupPolicyGVR (listNamespace o) (ListOptions.LabelSelector o)
    (ListOptions.FieldSelector o) = Ok items →
  items ≠ [] →
  log (PrintBackupPolicyList Run env o) = [list] ∧
  (Forall converts items →
   ∃ rows,
     outcome (PrintBackupPolicyList Run env o)
     = Ok (Some (backupPolicyListHeader, rows)) ∧
     rows = omap (policyRow env) (filter (shownPolicy (ListOptions.Names o)) items) ∧
     policyRowName <$> rows
     = filter (λ n, ListOptions.Names o = [] ∨ n ∈ ListOptions.Names o)
         (Unstructured.GetName <$> items)) ∧
  (¬ Forall converts items →
   is_Err (outcome (PrintBackupPolicyList Run env o))).
Proof.
  intros list converts HJ HY Hc Hl Hne.
  unfold PrintBackupPolicyList.
  rewrite !bool_decide_eq_false_2 by done. simpl orb. cbv iota.
  rewrite Hc. unfold lift. rewrite bind_Ok, app_nil_l, <-M_eta.
  assert (Hlo : ∀ lo', lo' = (if ListOptions.AllNamespaces o
                              then ListOptions.setNamespace "" o else o) →
    ListOptions.Namespace lo' = listNamespace o ∧
    ListOptions.LabelSelector lo' = ListOptions.LabelSelector o ∧
    ListOptions.FieldSelector lo' = ListOptions.FieldSelector o ∧
    ListOptions.Names lo' = ListOptions.Names o).
  { intros lo' ->. unfold listNamespace.
    by destruct (ListOptions.AllNamespaces o). }
  destruct (Hlo _ eq_refl) as (-> & -> & -> & ->).
  unfold List_. fold list. rewrite Hl, bind_Ok.
  rewrite bool_decide_eq_false_2 by (by destruct items).
  split; [|split].
  - destruct (addBackupPolicyRows _ _ _ _ _); by rewrite ?app_nil_r.
  - intros Hall. rewrite (addBackupPolicyRows_Ok _ _ _ _ Hall), app_nil_l.
    eexists. split; [done|]. split; [done|].
    clear Hl Hne. induction Hall as [|u items Hu _ IH]; [done|].
    rewrite fmap_cons, !filter_cons.
    change (ListOptions.Names o = [] ∨ Unstructured.GetName u ∈ ListOptions.Names o)
      with (shownPolicy (ListOptions.Names o) u).
    destruct (decide (shownPolicy _ u)); [|done].
    cbn [omap list_omap]. unfold policyRow at 1. unfold converts in Hu.
    destruct (FromUnstructured_BackupPolicy env u); [|done].
    cbn [fmap list_fmap policyRowName]. by f_equal.
  - intros Hn.
    pose proof (addBackupPolicyRows_Err env (ListOptions.Names o)
      (cluster.makeNameMap (ListOptions.Names o)) items [] Hn) as He.
    by destruct (addBackupPolicyRows _ _ _ _ _).
Qed.

(** The two example policies are listed as the server gives them; asking for
    the second one by name leaves one row. *)
Lemma PrintBackupPolicyList_server_order_witness :
  outcome (PrintBackupPolicyList ListOptions_Run example.env
             (ListOptions.mk BackupPolicyGVR
                ["mycluster-backup-policy-hscale"] "default" false "" "" ""))
  = Ok (Some (backupPolicyListHeader,
              [mkBackupPolicyRow "mycluster-backup-policy-hscale" "default"
                 "false" "mycluster" 30%Z "Available"])) ∧
  is_Err (outcome (PrintBackupPolicyList ListOptions_Run noPolicyEnv
             (ListOptions.mk BackupPolicyGVR
                ["mycluster-backup-policy-hscale"] "default" false "" "" ""))).
Proof.
  split.
  - destruct (proj1 (proj2 (PrintBackupPolicyList_server_order
      ListOptions_Run example.env
      (ListOptions.mk BackupPolicyGVR ["mycluster-backup-policy-hscale"]
         "default" false "" "" "")
      [example.policy1; example.policy2]
      ltac:(done) ltac:(done) eq_refl eq_refl ltac:(done)))
      ltac:(by repeat constructor)) as (rows & -> & -> & _).
    reflexivity.
  - apply (proj2 (proj2 (PrintBackupPolicyList_server_order
      ListOptions_Run noPolicyEnv
      (ListOptions.mk BackupPolicyGVR ["mycluster-backup-policy-hscale"]
         "default" false "" "" "")
      [example.policy1; example.policy2]
      ltac:(done) ltac:(done) eq_refl eq_refl ltac:(done)))).
    intros H. by inversion H.
Defined.

(** ** restore *)

(** X11. [restore] insists on [--backup] before anything else, and asks for
    a generated name only when none was given.  When validation succeeds the
    cluster has a name: the given one, else the generated one; it is also
    the name of the operation request and its cluster reference, the
    operation is a restore, and the flags of the restore are untouched. *)
Theorem CreateRestoreOptions_Validate_names
    (generateClusterName : Env → string → M string) (env : Env)
    (o : CreateRestoreOptions.t) :
  let run := CreateRestoreOptions.Validate generateClusterName env o in
  (RestoreSpec.BackupName (CreateRestoreOptions.RestoreSpec o) = "" →
   run = ([], Err "must be specified one of the --backup ")) ∧
  (CreateRestoreOptions.Name o ≠ "" → log run = []) ∧
  (∀ o', outcome run = Ok o' →
     RestoreSpec.BackupName (CreateRestoreOptions.RestoreSpec o) ≠ "" ∧
     CreateRestoreOptions.Name o' ≠ "" ∧
     (CreateRestoreOptions.Name o ≠ "" →
      CreateRestoreOptions.Name o' = CreateRestoreOptions.Name o) ∧
     (CreateRestoreOptions.Name o = "" →
      outcome (generateClusterName env (CreateRestoreOptions.Namespace o))
      = Ok (CreateRestoreOptions.Name o')) ∧
     CreateRestoreOptions.ClusterRef o' = CreateRestoreOptions.Name o' ∧
     CreateRestoreOptions.OpsRequestName o' = CreateRestoreOptions.Name o' ∧
     CreateRestoreOptions.OpsType o' = RestoreType ∧
     CreateRestoreOptions.RestoreSpec o' = CreateRestoreOptions.RestoreSpec o ∧
     CreateRestoreOptions.Namespace o' = CreateRestoreOptions.Namespace o).
Proof.
  intros run. unfold run, CreateRestoreOptions.Validate.
  split; [|split].
  - intros ->. by rewrite bool_decide_eq_true_2.
  - intros Hn. case_bool_decide; [done|].
    rewrite bool_decide_eq_false_2 by done. by rewrite bind_ret.
  - intros o'. case_bool_decide as Hb; [done|].
    case_bool_decide as Hn.
    + rewrite bind_assoc, outcome_bind.
      destruct (generateClusterName env _) as [l [name|e]]; [|done].
      cbn [outcome snd]. case_bool_decide as Hname; [done|].
      rewrite bind_ret. cbn [outcome snd mret M_ret]. intros [= <-].
      by repeat split.
    + rewrite bind_ret. cbn [outcome snd mret M_ret]. intros [= <-].
      by repeat split.
Qed.

(** [kbcli cluster restore --backup b1] in the example cluster: the name is
    generated with one list request. *)
Lemma CreateRestoreOptions_Validate_names_witness :
  CreateRestoreOptions.ClusterRef
    (CreateRestoreOptions.mk (RestoreSpec.mk "b1" "" "Parallel") "restored"
       "Restore" "restored" (CreateOptions.mk "default" "restored" []))
  = "restored".
Proof.
  pose proof (proj2 (proj2 (CreateRestoreOptions_Validate_names
    proposeRestored example.env
    (CreateRestoreOptions.mk (RestoreSpec.mk "b1" "" "Parallel") "" "" ""
       (CreateOptions.mk "default" "" []))))
    (CreateRestoreOptions.mk (RestoreSpec.mk "b1" "" "Parallel") "restored"
       "Restore" "restored" (CreateOptions.mk "default" "restored" []))
    eq_refl) as (_ & _ & _ & _ & H & _).
  exact H.
Defined.

(** ** Versions *)

(** X12. The version of KubeBlocks is the version label of its deployment
    when the cluster has exactly one; a cluster without one has the empty
    version and no error.  Everything else is an error: a failed list
    request, several deployments, a deployment without labels or without
    the version label. *)
Theorem getKubeBlocksVersion_accepts (chart : string)
    (client : version.Interface) (v : string) :
  let deploys :=
    version.DeploymentsList client ""
      ("app.kubernetes.io/name=" +:+ chart +:+
       ",app.kubernetes.io/component=apps") in
  version.getKubeBlocksVersion chart client = Ok v ↔
  (v = "" ∧ (deploys = Ok None ∨ deploys = Ok (Some []))) ∨
  (∃ labels,
     deploys = Ok (Some [version.mkDeployment (Some labels)]) ∧
     labels !! "app.kubernetes.io/version" = Some v).
Proof.
  intros deploys.
  unfold version.getKubeBlocksVersion, version.GetKubeBlocksDeploy.
  change (version.DeploymentsList client version.NamespaceAll _) with deploys.
  clearbody deploys.
  destruct deploys as [[[|[[labels|]] [|b l]]|]|e]; simpl;
    try destruct (labels !! "app.kubernetes.io/version") as [w|] eqn:Hw;
    (split;
     [intros H; simplify_eq; eauto
     |intros [[? [?|?]]|(labels' & ? & ?)]; by simplify_eq]).
Qed.

(** The example cluster has one KubeBlocks deployment, labelled 0.7.0. *)
Lemma getKubeBlocksVersion_accepts_witness :
  version.getKubeBlocksVersion "kubeblocks" version.exampleClient = Ok "0.7.0".
Proof.
  apply (proj2 (getKubeBlocksVersion_accepts "kubeblocks"
                  version.exampleClient "0.7.0")).
  right. exists {[ "app.kubernetes.io/version" := "0.7.0" ]}.
  split; reflexivity.
Defined.

(** X13. The version report always carries the version of the client.
    Without a cluster nothing else is filled in and there is no error.  The
    Kubernetes version is asked for first: when that fails the error is
    reported with both server versions empty, whatever the deployments are.
    A report with an error never carries a KubeBlocks version, and one
    without an error carries the versions that the two queries give. *)
Theorem GetVersionInfo_report (chart cli : string)
    (client : option version.Interface) :
  let report := version.GetVersionInfo chart cli client in
  version.Cli report.1 = cli ∧
  (client = None → report = (version.mkVersion "" "" cli, None)) ∧
  (∀ c e, client = Some c → version.Discovery c = Some (Err e) →
     report = (version.mkVersion "" "" cli, Some e)) ∧
  (report.2 ≠ None → version.KubeBlocks report.1 = "") ∧
  (∀ c, client = Some c → report.2 = None →
     version.GetK8sVersion (version.Discovery c)
     = Ok (version.Kubernetes report.1) ∧
     version.getKubeBlocksVersion chart c
     = Ok (version.KubeBlocks report.1)).
Proof.
  intros report. unfold report, version.GetVersionInfo.
  destruct client as [c|]; [|by repeat split].
  destruct (version.GetK8sVersion (version.Discovery c)) as [k8s|e] eqn:Hk;
    [destruct (version.getKubeBlocksVersion chart c) as [kb|e] eqn:Hkb|];
    cbn [fst snd version.Cli version.KubeBlocks version.Kubernetes].
  all: split; [done|]; split; [done|].
  all: split;
    [intros c' e' [= <-] Hd; rewrite Hd in Hk; simpl in Hk; by simplify_eq|].
  all: split; [done|].
  all: by intros c' [= <-] H.
Qed.

(** X14. The DataProtection deployment is the one deployment that carries
    the chart name and the component [dataprotection]: none is no error,
    several are. *)
Theorem GetDataProtectionDeploy_unique (chart : string)
    (client : version.Interface) :
  let deploys :=
    version.DeploymentsList client ""
      ("app.kubernetes.io/name=" +:+ chart +:+
       ",app.kubernetes.io/component=dataprotection") in
  (∀ d, version.GetDataProtectionDeploy chart client = Ok (Some d) ↔
        deploys = Ok (Some [d])) ∧
  (version.GetDataProtectionDeploy chart client = Ok None ↔
   deploys = Ok None ∨ deploys = Ok (Some [])) ∧
  (is_Err (version.GetDataProtectionDeploy chart client) ↔
   is_Err deploys ∨ ∃ Items, deploys = Ok (Some Items) ∧ 1 < length Items).
Proof.
  intros deploys. unfold version.GetDataProtectionDeploy.
  change (version.DeploymentsList client version.NamespaceAll _) with deploys.
  clearbody deploys.
  destruct deploys as [[[|a [|b l]]|]|e]; simpl.
  all: split; [intros d; split; intros H; by simplify_eq|].
  all: split; [split; [intros H; simplify_eq; auto|by intros [?|?]]|].
  all: split;
    [intros H;
     first [done | by left | right; eexists; split; [done|simpl; lia]]
    |intros [H|(Items & H & Hl)];
     first [done | simplify_eq; simpl in Hl; lia]].
Qed.

(** ** The mock client *)

Lemma fromObjects_foldl (objs : list (option template.Object))
    (r : gmap template.ObjectKey template.Object) (k : template.ObjectKey) :
  foldl (λ r obj,
           match obj with
           | Some obj => <[template.ObjectKeyFromObject obj := obj]> r
           | None => r
           end) r objs !! k
  = match last (filter (λ o, template.ObjectKeyFromObject o = k)
                  (template.present objs)) with
    | Some o => Some o
    | None => r !! k
    end.
Proof.
  revert r. induction objs as [|[o|] objs IH]; intros r; [done| |apply IH].
  cbn [foldl]. rewrite IH. unfold template.present. cbn [omap list_omap id].
  fold (template.present objs). rewrite filter_cons.
  destruct (decide (template.ObjectKeyFromObject o = k)) as [<-|Hne].
  - rewrite last_cons. rewrite lookup_insert_eq.
    by destruct (last _).
  - by rewrite lookup_insert_ne.
Qed.

Lemma fromObjects_lookup objs k :
  template.fromObjects objs !! k
  = last (filter (λ o, template.ObjectKeyFromObject o = k)
            (template.present objs)).
Proof.
  unfold template.fromObjects. rewrite fromObjects_foldl, lookup_empty.
  by destruct (last _).
Qed.

Lemma present_Some (os : list template.Object) :
  template.present (Some <$> os) = os.
Proof.
  unfold template.present. induction os as [|o os IH]; [done|].
  rewrite fmap_cons. cbn [omap list_omap id]. by f_equal.
Qed.

Lemma splitRuntimeObject_foldl (os : list template.Object)
    (r : gmap string (list template.Object)) :
  ∃ r',
    foldl (λ r object,
             match r, object with
             | Some r, Some object =>
               let kind := template.Kind object in
               let r := if bool_decide (is_Some (r !! kind)) then r
                        else <[kind := []]> r in
               Some (<[kind := default [] (r !! kind) ++ [object]]> r)
             | _, _ => None
             end) (Some r) (Some <$> os) = Some r' ∧
    ∀ k, r' !! k
         = match filter (λ o, template.Kind o = k) os with
           | [] => r !! k
           | found => Some (default [] (r !! k) ++ found)
           end.
Proof.
  match goal with |- context [foldl ?f _ _] => set (g := f) end.
  revert r. induction os as [|o os IH]; intros r; [by exists r|].
  rewrite fmap_cons.
  set (r0 := if bool_decide (is_Some (r !! template.Kind o)) then r
             else <[template.Kind o := []]> r).
  change (foldl g (Some r) (Some o :: (Some <$> os)))
    with (foldl g (Some (<[template.Kind o :=
                             default [] (r0 !! template.Kind o) ++ [o]]> r0))
            (Some <$> os)).
  assert (Hr0 : default [] (r0 !! template.Kind o)
                = default [] (r !! template.Kind o)).
  { unfold r0. case_bool_decide as Hs; [done|].
    rewrite lookup_insert_eq.
    destruct (r !! template.Kind o) eqn:Hk; [|done].
    destruct Hs. by eexists. }
  assert (Hne : ∀ k, k ≠ template.Kind o → r0 !! k = r !! k).
  { intros k Hk. unfold r0. case_bool_decide; [done|].
    by rewrite lookup_insert_ne. }
  destruct (IH (<[template.Kind o :=
                    default [] (r0 !! template.Kind o) ++ [o]]> r0))
    as (r' & -> & Hr').
  exists r'. split; [done|]. intros k. rewrite Hr', filter_cons.
  destruct (decide (template.Kind o = k)) as [<-|Hk].
  - rewrite lookup_insert_eq, Hr0. simpl.
    destruct (filter _ os); [done|]. by rewrite <-app_assoc.
  - rewrite lookup_insert_ne by done. by rewrite Hne.
Qed.

Lemma splitRuntimeObject_nil_foldl
    (objs : list (option template.Object)) :
  foldl (λ (r : option (gmap string (list template.Object))) object,
           match r, object with
           | Some r, Some object =>
             let kind := template.Kind object in
             let r := if bool_decide (is_Some (r !! kind)) then r
                      else <[kind := []]> r in
             Some (<[kind := default [] (r !! kind) ++ [object]]> r)
           | _, _ => None
           end) None objs = None.
Proof. by induction objs. Qed.

Lemma splitRuntimeObject_Some (os : list template.Object) :
  ∃ r, template.splitRuntimeObject (Some <$> os) = Some r ∧
       ∀ k, r !! k
            = match filter (λ o, template.Kind o = k) os with
              | [] => None
              | found => Some found
              end.
Proof.
  destruct (splitRuntimeObject_foldl os ∅) as (r & Hr & Hk).
  exists r. split; [done|]. intros k. rewrite Hk, lookup_empty.
  by destruct (filter _ os).
Qed.

Lemma splitRuntimeObject_None objs :
  template.splitRuntimeObject objs = None ↔ None ∈ objs.
Proof.
  unfold template.splitRuntimeObject.
  generalize (∅ : gmap string (list template.Object)).
  match goal with |- context [foldl ?f _ _] => set (g := f) end.
  induction objs as [|[o|] objs IH]; intros r.
  - split; [done|]. by intros ?%elem_of_nil.
  - change (foldl g (Some r) (Some o :: objs))
      with (foldl g (g (Some r) (Some o)) objs).
    cbn [g]. cbv zeta. rewrite IH, elem_of_cons.
    split; [by right|by intros [?|?]].
  - change (foldl g (Some r) (None :: objs)) with (foldl g None objs).
    unfold g. rewrite splitRuntimeObject_nil_foldl, elem_of_cons.
    split; [by left|done].
Qed.

(** X15. The mock client cannot be made from a list that holds a nil
    object: the map of objects leaves nil out, but the split by kind panics
    at it.  From a list without nil the client is made, with no handler. *)
Theorem newMockClient_nil (objs : list (option template.Object)) :
  (template.newMockClient objs = None ↔ None ∈ objs) ∧
  template.fromObjects objs
  = template.fromObjects (Some <$> template.present objs) ∧
  (∀ m, template.newMockClient objs = Some m →
        template.hander m = None ∧
        template.objects m = template.fromObjects objs).
Proof.
  split; [|split].
  - unfold template.newMockClient. rewrite <-splitRuntimeObject_None.
    by destruct (template.splitRuntimeObject objs).
  - apply map_eq. intros k. by rewrite !fromObjects_lookup, present_Some.
  - unfold template.newMockClient. intros m.
    destruct (template.splitRuntimeObject objs); [|done].
    by intros [= <-].
Qed.

(** X16. A client made from a list of objects lists, for the kind of the
    list asked for, the objects of that kind in the order in which they were
    given; when it has none of that kind the list is left as it is. *)
Theorem newMockClient_List_by_kind
    (SetList : template.ObjectList → list template.Object →
               result template.ObjectList)
    (os : list template.Object) :
  ∃ m, template.newMockClient (Some <$> os) = Some m ∧
       ∀ list,
         template.List SetList m list
         = match filter (λ o, template.Kind o = template.ListKind list) os with
           | [] => Ok list
           | found => SetList list found
           end.
Proof.
  unfold template.newMockClient.
  destruct (splitRuntimeObject_Some os) as (r & -> & Hr).
  eexists. split; [done|]. intros list.
  unfold template.List, template.SetListReturnedObjects.
  cbn [template.kindObjectList]. rewrite Hr.
  by destruct (filter _ os).
Qed.

(** X17. A client made from a list of objects answers a get with the last
    object given under the key, and when there is none with the last one
    given under the same name and no namespace; only when there is neither
    is the object not found.  An object that was given is always found under
    its own key. *)
Theorem newMockClient_Get_last (os : list template.Object)
    (m : template.mockClient) (key : template.ObjectKey)
    (obj : template.Object) :
  let under k := last (filter (λ o, template.ObjectKeyFromObject o = k) os) in
  template.newMockClient (Some <$> os) = Some m →
  template.Get m key obj
  = match under key, under ("", key.2) with
    | Some object, _ | None, Some object =>
      Ok <$> template.SetGetReturnedObject obj object
    | None, None => Some (Err (template.NewNotFound key))
    end ∧
  (∀ o, o ∈ os →
     ∃ object, template.Get m (template.ObjectKeyFromObject o) obj
               = Ok <$> template.SetGetReturnedObject obj object ∧
               object ∈ os ∧
               template.ObjectKeyFromObject object
               = template.ObjectKeyFromObject o).
Proof.
  intros under Hm.
  assert (Hobj : ∀ k, template.objects m !! k = under k).
  { intros k. unfold template.newMockClient in Hm.
    destruct (template.splitRuntimeObject _); [|done].
    injection Hm as <-. cbn [template.objects].
    by rewrite fromObjects_lookup, present_Some. }
  assert (Hget : template.Get m key obj
    = match under key, under ("", key.2) with
      | Some object, _ | None, Some object =>
        Ok <$> template.SetGetReturnedObject obj object
      | None, None => Some (Err (template.NewNotFound key))
      end).
  { unfold template.Get. rewrite !Hobj.
    destruct (under key); [done|]. by destruct (under ("", key.2)). }
  split; [done|].
  intros o Ho. unfold template.Get. rewrite Hobj.
  destruct (under (template.ObjectKeyFromObject o)) as [object|] eqn:Hu.
  - exists object. split; [done|].
    apply last_Some_elem_of, list_elem_of_filter in Hu. by destruct Hu.
  - unfold under in Hu. apply last_None in Hu.
    assert (Hin : o ∈ filter (λ o', template.ObjectKeyFromObject o'
                                    = template.ObjectKeyFromObject o) os)
      by by apply list_elem_of_filter.
    rewrite Hu in Hin. by apply elem_of_nil in Hin.
Qed.

(** In a client made from two config maps of the same name, a node and a
    pod, the second config map is the one found. *)
Lemma newMockClient_Get_last_witness :
  template.Get template.exampleMock ("default", "cm") template.cm1
  = Some (Ok template.cm2).
Proof.
  exact (eq_trans (proj1 (newMockClient_Get_last
    [template.cm1; template.cm2; template.node; template.pod]
    template.exampleMock ("default", "cm") template.cm1 eq_refl)) eq_refl).
Defined.

(** X18. An object appended to the client never replaces one that the
    client has under the same key, and is never listed.  Afterwards a get
    for its key finds the object that the client had, else the appended one;
    the other keys are as before, and appending it again changes nothing. *)
Theorem AppendMockObjects_keeps
    (SetList : template.ObjectList → list template.Object →
               result template.ObjectList)
    (m : template.mockClient) (obj out : template.Object) :
  let m' := template.AppendMockObjects obj m in
  let objKey := template.ObjectKeyFromObject obj in
  let kept := default obj (template.objects m !! objKey) in
  template.objects m' !! objKey = Some kept ∧
  (∀ k, k ≠ objKey → template.objects m' !! k = template.objects m !! k) ∧
  template.Get m' objKey out = Ok <$> template.SetGetReturnedObject out kept ∧
  (∀ list, template.List SetList m' list = template.List SetList m list) ∧
  template.AppendMockObjects obj m' = m'.
Proof.
  intros m' objKey kept.
  assert (H1 : template.objects m' !! objKey = Some kept).
  { unfold m', kept, template.AppendMockObjects. fold objKey.
    case_bool_decide as Hs.
    - destruct Hs as [o Ho]. by rewrite Ho.
    - cbn [template.objects]. rewrite lookup_insert_eq.
      destruct (template.objects m !! objKey) eqn:Hk; [|done].
      destruct Hs. by eexists. }
  split; [done|]. split; [|split; [|split]].
  - intros k Hk. unfold m', template.AppendMockObjects. fold objKey.
    case_bool_decide; [done|]. cbn [template.objects].
    by rewrite lookup_insert_ne.
  - unfold template.Get. by rewrite H1.
  - intros list. unfold template.List, m', template.AppendMockObjects.
    by case_bool_decide.
  - unfold template.AppendMockObjects at 1. fold objKey.
    rewrite H1. by rewrite bool_decide_eq_true_2.
Qed.

(** X19. [Create] fails exactly when a handler is set that has at least one
    matcher, every matcher accepts the object, and the handler fails on it;
    the error is that of the handler. *)
Theorem Create_handler (m : template.mockClient) (obj : template.Object)
    (e : string) :
  template.Create m obj = Err e ↔
  ∃ h, template.hander m = Some h ∧
       template.ResourceHandler.Matcher h ≠ [] ∧
       Forall (λ matcher, matcher obj = true)
         (template.ResourceHandler.Matcher h) ∧
       template.ResourceHandler.Handler h obj = Err e.
Proof.
  assert (Hall : ∀ matchers,
    template.matchAll matchers obj = true
    ↔ Forall (λ matcher : template.ResourceMatcher, matcher obj = true)
        matchers).
  { induction matchers as [|f matchers IH]; simpl.
    - split; [constructor|done].
    - rewrite Forall_cons, <-IH.
      destruct (f obj); simpl;
        [split; [by split|by intros [_ ?]]|split; [done|by intros [? _]]]. }
  unfold template.Create. destruct (template.hander m) as [h|].
  - case_bool_decide as Hl.
    + split; [done|]. intros (h' & [= <-] & Hne & _).
      by apply nil_length_inv in Hl.
    + destruct (template.matchAll _ obj) eqn:Hm.
      * split.
        -- intros He. exists h. rewrite <-Hall.
           repeat split; try done. intros Hnil. apply Hl. by rewrite Hnil.
        -- by intros (h' & [= <-] & _ & _ & He).
      * split; [done|]. intros (h' & [= <-] & _ & Hf & _).
        apply Hall in Hf. by rewrite Hf in Hm.
  - split; [done|]. by intros (h & ? & _).
Qed.

(** The handler that refuses config maps of the namespace [default]
    refuses the first example config map. *)
Lemma Create_handler_witness :
  template.Create
    (template.SetResourceHandler (Some template.refuseConfigMaps)
       (template.mkMockClient ∅ ∅ None))
    template.cm1
  = Err "refused".
Proof.
  apply (proj2 (Create_handler _ template.cm1 "refused")).
  exists template.refuseConfigMaps.
  repeat split; [done|]. by repeat constructor.
Defined.

(** ** describe-backup: the failure reason *)




